(** * pyswarms: swarm operators and the optimizer base class

    A shallow embedding of [pyswarms/backend/operators.py] and
    [pyswarms/base/base.py].

    - numpy's [float64] is the kernel's binary64 [float]; a cost vector is a
      [list float], a position matrix a list of rows.
    - A Python call either returns a value or raises: [result].
    - The operators receive the swarm object by reference; they are written
      in a state monad over the swarm, so that what they read and what they
      assign is explicit.
    - A pool runs the objective function in worker processes: what a task
      returns or raises reaches the caller as a pickle, as
      [multiprocessing/pool.py] writes it.
    - The optimizer's history attributes are references to list objects in
      a store; class attributes and instance attributes are kept apart. *)

From Stdlib Require Import ZArith PrimFloat FloatAxioms SpecFloat FloatOps.
From stdpp Require Import base list strings gmap.

Local Open Scope nat_scope.

(* ===================================================================== *)
(** * Python values, exceptions, results                                 *)
(* ===================================================================== *)

Abbreviation vector := (list float).
Abbreviation matrix := (list (list float)).

(** The exceptions the modelled code can meet, by class and arguments.
    [UserError] stands for an exception class of the caller's own, defined
    at the top of a module and identified by its name. [UnpicklableError]
    stands for an exception of the caller's own that [pickle] refuses: an
    instance of a class defined inside a function, or one that holds a
    lambda. [MaybeEncodingError] is the class of [multiprocessing.pool] that
    a worker sends in place of a result it could not send; its arguments,
    the [repr] of that result and of the reason, are left out. *)
Inductive exn :=
| ValueError (msg : string)
| TypeError (msg : string)
| AttributeError (name : string)
| AssertionError (msg : string)
| NotImplementedError (msg : string)
| UserError (name : string)
| UnpicklableError (name : string)
| MaybeEncodingError.

Inductive result (A : Type) :=
| Ok (a : A)
| Raise (e : exn).
Arguments Ok {A} a.
Arguments Raise {A} e.

#[global] Instance result_ret : MRet result := @Ok.
#[global] Instance result_bind : MBind result := fun A B k r =>
  match r with
  | Ok a => k a
  | Raise e => Raise e
  end.

(** [[g(x) for x in xs]] with a [g] that may raise: evaluation is left to
    right and stops at the first exception. *)
Fixpoint mapR {A B} (g : A -> result B) (xs : list A) : result (list B) :=
  match xs with
  | [] => Ok []
  | x :: xs' => y ← g x ; ys ← mapR g xs' ; Ok (y :: ys)
  end.

(** A computation that holds a reference to a mutable object of type [S]:
    it returns or raises, and leaves the object in some state. *)
Definition stateful (S A : Type) := S -> result A * S.

#[global] Instance stateful_ret {S} : MRet (stateful S) :=
  fun A a s => (Ok a, s).
#[global] Instance stateful_bind {S} : MBind (stateful S) := fun A B k m s =>
  match m s with
  | (Ok a, s') => k a s'
  | (Raise e, s') => (Raise e, s')
  end.

(** Reading an attribute of the object. *)
Definition get {S A} (field : S -> A) : stateful S A :=
  fun s => (Ok (field s), s).

(** A call on values already read: it cannot reach the object. *)
Definition lift {S A} (r : result A) : stateful S A := fun s => (r, s).

(** What a computation returns and the state it leaves behind. *)
Definition returns {S A} (m : stateful S A) (s : S) : result A := fst (m s).
Definition leaves {S A} (m : stateful S A) (s : S) : S := snd (m s).

(* ===================================================================== *)
(** * The swarm and the Python values                                    *)
(* ===================================================================== *)

(** [Options] of base.py: the coefficients of the velocity update. *)
Record Options := { c1 : float; c2 : float; w : float }.

(** Modelled from the spec: the Swarm State record of section 3
    ([pyswarms/backend/swarms.py] is not among the sources). [dimensions] is
    the attribute [compute_pbest] reads: the number of columns of the
    position matrix. *)
Record Swarm := {
  position : matrix;
  velocity : matrix;
  dimensions : nat;
  options : Options;
  pbest_pos : matrix;
  best_pos : vector;
  pbest_cost : vector;
  best_cost : float;
  current_cost : vector
}.

(** Addresses of list objects. *)
Abbreviation loc := nat (only parsing).

(** The Python objects that cross the interfaces of the modelled code: what
    an objective function may return, what a history field may hold, what a
    caller may pass to the constructor. A two-dimensional array carries its
    number of columns, so that an array of shape (0, c) is represented; a
    list is a reference into the store of list objects. *)
#[warnings="-register-all"] Inductive pyval :=
| PyNone
| PyBool (b : bool)
| PyInt (z : Z)
| PyFloat (x : float)
| PyStr (s : string)
| PyTuple (items : list pyval)
| PyArr1 (v : vector)
| PyArr2 (ncols : nat) (rows : matrix)
| PySwarm (s : Swarm)
| PyRef (l : loc).

(** Python's builtin [min(a, b)] on two floats: the first argument is kept
    unless the second compares strictly less. *)
Definition py_min (a b : float) : float :=
  if (b <? a)%float then b else a.

(** Keyword arguments. *)
Definition kwargs := list (string * pyval).

(** [functools.partial(f, **kw)] for a function of one positional argument. *)
Definition partial {A B} (f : A -> kwargs -> B) (kw : kwargs) : A -> B :=
  fun x => f x kw.

(* ===================================================================== *)
(** * The numpy operations the operators use                             *)
(* ===================================================================== *)

Module np.

Definition shape_error : exn :=
  ValueError "operands could not be broadcast together".

(** An elementwise binary operation on one-dimensional arrays, with
    numpy's broadcasting: the lengths agree, or one operand has length one
    and is stretched; otherwise [ValueError]. *)
Definition elementwise {A B C} (f : A -> B -> C) (a : list A) (b : list B)
  : result (list C) :=
  if length a =? length b then Ok (zip_with f a b)
  else
    match a, b with
    | [x], _ => Ok (map (f x) b)
    | _, [y] => Ok (map (fun x => f x y) a)
    | _, _ => Raise shape_error
    end.

(** The same on two-dimensional arrays: the rule applies to the rows and,
    within two rows, to the columns. (A matrix without rows has no number
    of columns here.) *)
Definition elementwise2 {A B C} (f : A -> B -> C)
    (a : list (list A)) (b : list (list B)) : result (list (list C)) :=
  rows ← elementwise (elementwise f) a b ; mapR id rows.

(** [a < b] on cost vectors. *)
Definition less (a b : vector) : result (list bool) :=
  elementwise PrimFloat.ltb a b.

(** [a + b] on matrices. *)
Definition add (a b : matrix) : result matrix :=
  elementwise2 PrimFloat.add a b.

(** [~mask] on a boolean array. *)
Definition invert (mask : list bool) : list bool := map negb mask.
Definition invert2 (mask : list (list bool)) : list (list bool) :=
  map invert mask.

(** [np.repeat(mask[:, np.newaxis], k, axis=1)]: every entry of a
    one-dimensional array becomes a row of [k] copies of it. *)
Definition repeat_newaxis {A} (mask : list A) (k : nat) : list (list A) :=
  map (fun b => replicate k b) mask.

Definition choose {A} (c : bool) (p : A * A) : A :=
  if c then fst p else snd p.

(** [np.where(cond, x, y)]: [x] where [cond] holds, [y] elsewhere; the three
    arrays are broadcast against each other. *)
Definition where1 {A} (cond : list bool) (x y : list A) : result (list A) :=
  xy ← elementwise pair x y ; elementwise choose cond xy.

Definition where2 {A} (cond : list (list bool)) (x y : list (list A))
  : result (list (list A)) :=
  xy ← elementwise2 pair x y ; elementwise2 choose cond xy.

(** [a.copy()]: a fresh array with the same contents. *)
Definition copy {A} (a : list (list A)) : list (list A) := a.

(** [np.cumsum] on integers. *)
Fixpoint cumsum_from (acc : nat) (l : list nat) : list nat :=
  match l with
  | [] => []
  | x :: l' => (acc + x) :: cumsum_from (acc + x) l'
  end.
Definition cumsum (l : list nat) : list nat := cumsum_from 0 l.

(** The slice [a[st:en]] along the first axis. *)
Definition slice {A} (st en : nat) (a : list A) : list A :=
  drop st (take en a).

(** [np.array_split(ary, Nsections)] along axis 0, as numpy writes it:
<<
    Ntotal = len(ary)
    if Nsections <= 0: raise ValueError(...)
    Neach_section, extras = divmod(Ntotal, Nsections)
    section_sizes = ([0] + extras * [Neach_section + 1]
                     + (Nsections - extras) * [Neach_section])
    div_points = array(section_sizes).cumsum()
    for i in range(Nsections):
        sub_arys.append(ary[div_points[i]:div_points[i + 1]])
>> *)
Definition section_sizes (Ntotal Nsections : nat) : list nat :=
  let Neach_section := Ntotal / Nsections in
  let extras := Ntotal mod Nsections in
  [0] ++ replicate extras (Neach_section + 1)
      ++ replicate (Nsections - extras) Neach_section.

Definition div_points (Ntotal Nsections : nat) : list nat :=
  cumsum (section_sizes Ntotal Nsections).

Definition array_split {A} (ary : list A) (Nsections : nat)
  : result (list (list A)) :=
  if Nsections =? 0 then
    Raise (ValueError "number sections must be larger than 0.")
  else
    let dp := div_points (length ary) Nsections in
    Ok (map (fun i => slice (nth i dp 0) (nth (i + 1) dp 0) ary)
            (seq 0 Nsections)).

Definition as_arr1 (v : pyval) : option vector :=
  match v with PyArr1 xs => Some xs | _ => None end.

Definition as_arr2 (c : nat) (v : pyval) : option matrix :=
  match v with
  | PyArr2 c' rows => if c' =? c then Some rows else None
  | _ => None
  end.

(** [np.concatenate(arrays)] along axis 0 on a list of objects: the arrays
    must have the same number of dimensions and, when two-dimensional, of
    columns; a number, a string, [None] or another object that is no
    sequence is an array without dimensions and refused. numpy turns a tuple
    or a list into an array before it joins; an array of integers, of
    strings or of three dimensions has no counterpart among the [pyval]
    arrays, so the last case is numpy's only for the objects that are no
    sequences, and the theorems use [concatenate] on arrays and on such
    objects only. *)
Definition concatenate (arrays : list pyval) : result pyval :=
  match arrays with
  | [] => Raise (ValueError "need at least one array to concatenate")
  | PyArr1 _ :: _ =>
      match mapM as_arr1 arrays with
      | Some vs => Ok (PyArr1 (concat vs))
      | None => Raise (ValueError "all the input arrays must have same number of dimensions")
      end
  | PyArr2 c _ :: _ =>
      match mapM (as_arr2 c) arrays with
      | Some ms => Ok (PyArr2 c (concat ms))
      | None => Raise (ValueError "all the input array dimensions except for the concatenation axis must match exactly")
      end
  | _ :: _ => Raise (ValueError "zero-dimensional arrays cannot be concatenated")
  end.

End np.

(** [multiprocessing.pool.Pool]: the attribute the evaluator reads is the
    number of worker processes. *)
Record Pool := { _processes : nat }.

(** Whether [pickle] can serialise the exception: a worker process hands
    its result to the caller's process as a pickle. *)
Definition picklable (e : exn) : bool :=
  match e with
  | UnpicklableError _ => false
  | _ => true
  end.

(** The exception the caller's process receives for an exception [e] raised
    in a worker. A picklable [e] is rebuilt from its pickle
    ([rebuild_exc]): an exception of the same class and arguments, which is
    the same [exn]. Otherwise the worker's [put] fails and the worker sends
    a [MaybeEncodingError]. *)
Definition reraised (e : exn) : exn :=
  if picklable e then e else MaybeEncodingError.

(** One task in [multiprocessing.pool.worker], as pool.py writes it:
<<
    try:
        result = (True, func(item))
    except Exception as e:
        e = ExceptionWithTraceback(e, e.__traceback__)
        result = (False, e)
    try:
        put((job, i, result))
    except Exception as e:
        wrapped = MaybeEncodingError(e, result[1])
        put((job, i, (False, wrapped)))
>>
    The values the modelled objectives return ([pyval]) can all be
    pickled. *)
Definition worker {A B} (func : A -> result B) (x : A) : result B :=
  match func x with
  | Ok v => Ok v
  | Raise e => Raise (reraised e)
  end.

(** [pool.map(func, iterable)]: with as many items as workers every item is
    a task of its own (the chunk size is one). All tasks are run; [map]
    returns the results in the order of the items, or raises the exception
    of a task that failed, as the worker sent it. When several tasks fail,
    [MapResult._set] keeps the failure that arrives first, which depends on
    the timing of the workers: the model takes the first in the order of
    the items, and what is proved of a raising [map] is stated for the
    exception of some failing item. That [func] itself can be sent to the
    workers is a precondition of the call. *)
Definition pool_map {A B} (pool : Pool) (func : A -> result B)
    (iterable : list A) : result (list B) :=
  mapR (worker func) iterable.

(** Bounds: a pair (lower, upper). *)
Definition Bounds : Type := vector * vector.

(** A [BoundaryHandler] instance is called as [bh(position, bounds)]
    ([pyswarms/backend/handlers.py] is not among the sources): it is taken
    as the function it computes. *)
Definition BoundaryHandler := matrix -> Bounds -> result matrix.

(** An objective function: called on a position matrix and keyword
    arguments, it returns some object or raises. *)
Definition Objective := matrix -> kwargs -> result pyval.

(* ===================================================================== *)
(** * backend/operators.py                                               *)
(* ===================================================================== *)

Module operators.

(** [compute_pbest(swarm)] *)
Definition compute_pbest : stateful Swarm (matrix * vector) :=
  dims ← get dimensions ;
  cur ← get current_cost ;
  pbc ← get pbest_cost ;
  mask_cost ← lift (np.less cur pbc) ;
  let mask_pos := np.repeat_newaxis mask_cost dims in
  pbp ← get pbest_pos ;
  pos ← get position ;
  new_pbest_pos ← lift (np.where2 (np.invert2 mask_pos) pbp pos) ;
  new_pbest_cost ← lift (np.where1 (np.invert mask_cost) pbc cur) ;
  mret (new_pbest_pos, new_pbest_cost).

(** [compute_position(swarm, bounds, bh)] *)
Definition compute_position (bounds : option Bounds) (bh : BoundaryHandler)
  : stateful Swarm matrix :=
  pos ← get position ;
  vel ← get velocity ;
  temp_position ← lift (np.add (np.copy pos) vel) ;
  temp_position ←
    match bounds with
    | Some b => lift (bh temp_position b)
    | None => mret temp_position
    end ;
  let position := temp_position in
  mret position.

(** [compute_objective_function(swarm, objective_func, pool, **kwargs)] *)
Definition compute_objective_function (objective_func : Objective)
    (pool : option Pool) (kw : kwargs) : stateful Swarm pyval :=
  match pool with
  | None =>
      pos ← get position ;
      lift (objective_func pos kw)
  | Some pool =>
      pos ← get position ;
      blocks ← lift (np.array_split pos (_processes pool)) ;
      results ← lift (pool_map pool (partial objective_func kw) blocks) ;
      lift (np.concatenate results)
  end.

End operators.

(* ===================================================================== *)
(** * base/base.py                                                       *)
(* ===================================================================== *)

Module base.

(** [ToHistory]: a named tuple; the annotations of its fields are not
    enforced at run time. *)
Record ToHistory := {
  best_cost : pyval;
  mean_pbest_cost : pyval;
  mean_neighbor_cost : pyval;
  position : pyval;
  velocity : pyval
}.

(** The state an optimizer instance lives in: the store of list objects,
    the attributes of the class [BaseSwarmOptimizer] and the attributes of
    the instance ([self.__dict__]). *)
Record State := {
  heap : gmap loc (list pyval);
  class_attrs : gmap string pyval;
  self_attrs : gmap string pyval
}.

(** [self.name]: the instance's attribute, else the class's. *)
Definition getattr (name : string) : stateful State pyval := fun st =>
  match self_attrs st !! name with
  | Some v => (Ok v, st)
  | None =>
      match class_attrs st !! name with
      | Some v => (Ok v, st)
      | None => (Raise (AttributeError name), st)
      end
  end.

(** [self.name = v]: always binds in the instance. *)
Definition setattr (name : string) (v : pyval) : stateful State unit :=
  fun st =>
    (Ok tt, {| heap := heap st;
               class_attrs := class_attrs st;
               self_attrs := <[name := v]> (self_attrs st) |}).

(** The list display [[]]: a new, empty list object. *)
Definition new_list : stateful State pyval := fun st =>
  let l := fresh (dom (heap st)) in
  (Ok (PyRef l), {| heap := <[l := []]> (heap st);
                    class_attrs := class_attrs st;
                    self_attrs := self_attrs st |}).

(** [obj.append(x)]: in place, on the list object [obj] refers to. Of the
    modelled values only lists have [append]; a dangling reference does not
    occur in Python and is reported as a missing attribute as well. *)
Definition list_append (obj x : pyval) : stateful State unit := fun st =>
  match obj with
  | PyRef l =>
      match heap st !! l with
      | Some xs => (Ok tt, {| heap := <[l := xs ++ [x]]> (heap st);
                              class_attrs := class_attrs st;
                              self_attrs := self_attrs st |})
      | None => (Raise (AttributeError "append"), st)
      end
  | _ => (Raise (AttributeError "append"), st)
  end.

(** The state once the class statement of [BaseSwarmOptimizer] has run:
    its body has made five list objects and bound them to class attributes;
    there is no instance yet. *)
Definition class_defined : State :=
  {| heap := <[4 := []]> (<[3 := []]> (<[2 := []]> (<[1 := []]> (<[0 := []]> ∅))));
     class_attrs :=
       <["velocity_history" := PyRef 4]> (
       <["pos_history" := PyRef 3]> (
       <["mean_neighbor_history" := PyRef 2]> (
       <["mean_pbest_history" := PyRef 1]> (
       <["cost_history" := PyRef 0]> ∅))));
     self_attrs := ∅ |}.

(** The truth value of [v > 0]. Numbers compare with [0]; an array compares
    elementwise and has a truth value only when it holds one element; the
    other objects do not support [>] with an [int]. *)
Definition gt_zero (v : pyval) : result bool :=
  match v with
  | PyInt z => Ok (0 <? z)%Z
  | PyBool b => Ok b
  | PyFloat x => Ok (0 <? x)%float
  | PyArr1 [x] => Ok (0 <? x)%float
  | PyArr2 _ [[x]] => Ok (0 <? x)%float
  | PyArr1 _ | PyArr2 _ _ =>
      Raise (ValueError "The truth value of an array with more than one element is ambiguous")
  | PyNone | PyStr _ | PyTuple _ | PySwarm _ | PyRef _ =>
      Raise (TypeError "'>' not supported")
  end.

(** [isinstance(v, int)]: [bool] is a subclass of [int]. *)
Definition isinstance_int (v : pyval) : bool :=
  match v with
  | PyInt _ | PyBool _ => true
  | _ => false
  end.

(** [assert cond, msg] *)
Definition py_assert (cond : bool) (msg : string) : stateful State unit :=
  if cond then mret tt else lift (Raise (AssertionError msg)).

(** [_populate_history(self, hist)] *)
Definition _populate_history (hist : ToHistory) : stateful State unit :=
  h ← getattr "cost_history" ;
  _ ← list_append h (best_cost hist) ;
  h ← getattr "mean_pbest_history" ;
  _ ← list_append h (mean_pbest_cost hist) ;
  h ← getattr "mean_neighbor_history" ;
  _ ← list_append h (mean_neighbor_cost hist) ;
  h ← getattr "pos_history" ;
  _ ← list_append h (position hist) ;
  h ← getattr "velocity_history" ;
  list_append h (velocity hist).

(** [_init_swarm(self)] as the abstract base class defines it. *)
Definition _init_swarm : stateful State unit :=
  lift (Raise (NotImplementedError "SwarmBase::init_swarm()")).

(** [reset(self)]; [init_swarm] is the [_init_swarm] of the concrete class. *)
Definition reset (init_swarm : stateful State unit) : stateful State unit :=
  l ← new_list ; _ ← setattr "cost_history" l ;
  l ← new_list ; _ ← setattr "mean_pbest_history" l ;
  l ← new_list ; _ ← setattr "mean_neighbor_history" l ;
  l ← new_list ; _ ← setattr "pos_history" l ;
  l ← new_list ; _ ← setattr "velocity_history" l ;
  init_swarm.

(** [__init__(self, n_particles, dimensions, options, velocity_clamp,
    init_pos, ftol, ftol_iter)] *)
Definition __init__ (init_swarm : stateful State unit)
    (n_particles dimensions options velocity_clamp init_pos ftol ftol_iter : pyval)
  : stateful State unit :=
  _ ← setattr "n_particles" n_particles ;
  _ ← setattr "dimensions" dimensions ;
  _ ← setattr "velocity_clamp" velocity_clamp ;
  _ ← setattr "swarm_size" (PyTuple [n_particles; dimensions]) ;
  _ ← setattr "options" options ;
  _ ← setattr "init_pos" init_pos ;
  _ ← setattr "ftol" ftol ;
  positive ← lift (gt_zero ftol_iter) ;
  _ ← py_assert (positive && isinstance_int ftol_iter)
        "ftol_iter expects an integer value greater than 0" ;
  _ ← setattr "ftol_iter" ftol_iter ;
  reset init_swarm.

(** The call [Cls(...)] of a concrete class: a new object without
    attributes is made and [__init__] runs on it; the caller receives the
    object only when [__init__] returns. *)
Definition construct (init_swarm : stateful State unit)
    (n_particles dimensions options velocity_clamp init_pos ftol ftol_iter : pyval)
  : stateful State (gmap string pyval) :=
  fun st =>
    let fresh_self := {| heap := heap st;
                         class_attrs := class_attrs st;
                         self_attrs := ∅ |} in
    match __init__ init_swarm n_particles dimensions options velocity_clamp
                   init_pos ftol ftol_iter fresh_self with
    | (Ok _, st') => (Ok (self_attrs st'), st')
    | (Raise e, st') => (Raise e, st')
    end.

End base.

(* ===================================================================== *)
(** * Specification predicates                                           *)
(* ===================================================================== *)

(** A matrix of [N] rows and [D] columns. *)
Definition has_shape (N D : nat) (m : matrix) : Prop :=
  length m = N /\ Forall (fun row => length row = D) m.

(** The arrays [compute_pbest] reads, for [N] particles in [D] dimensions. *)
Definition pbest_shapes (N D : nat) (s : Swarm) : Prop :=
  dimensions s = D /\
  length (current_cost s) = N /\
  length (pbest_cost s) = N /\
  has_shape N D (position s) /\
  has_shape N D (pbest_pos s).

(** The arrays [compute_position] reads. *)
Definition position_shapes (N D : nat) (s : Swarm) : Prop :=
  has_shape N D (position s) /\ has_shape N D (velocity s).

(** The [i]-th division point, in closed form. *)
Definition div_point (Ntotal Nsections i : nat) : nat :=
  i * (Ntotal / Nsections) + min i (Ntotal mod Nsections).


(** The objective contract: applied to a block of rows, the function returns
    the vector of the costs of the rows, [cost] being the cost of one row. *)
Definition rowwise (objective_func : Objective) (kw : kwargs)
    (cost : list float -> float) : Prop :=
  forall block, objective_func block kw = Ok (PyArr1 (map cost block)).

(** A computation that assigns nothing to the object it holds. *)
Definition readonly {S A} (m : stateful S A) : Prop :=
  forall s, leaves m s = s.

(** The history attributes and the configured hyperparameters of an
    optimizer. *)
Definition history_names : list string :=
  ["cost_history"; "mean_pbest_history"; "mean_neighbor_history";
   "pos_history"; "velocity_history"].

Definition hyperparameter_names : list string :=
  ["n_particles"; "dimensions"; "swarm_size"; "options"; "velocity_clamp";
   "init_pos"; "ftol"; "ftol_iter"].

(** What [self.name] evaluates to, if the attribute exists. *)
Definition resolve (st : base.State) (name : string) : option pyval :=
  match base.self_attrs st !! name with
  | Some v => Some v
  | None => base.class_attrs st !! name
  end.

(** The list object a history attribute refers to. *)
Definition history_ref (st : base.State) (name : string) : option nat :=
  match resolve st name with
  | Some (PyRef l) => Some l
  | _ => None
  end.

(** The contents of the history [self.name]. *)
Definition history (st : base.State) (name : string) : option (list pyval) :=
  l ← history_ref st name ; base.heap st !! l.

(** The five history attributes refer to five different list objects. *)
Definition distinct_histories (st : base.State) : Prop :=
  exists ls, mapM (history_ref st) history_names = Some ls /\
             NoDup ls /\
             Forall (fun l => is_Some (base.heap st !! l)) ls.

(** What an [_init_swarm] of a concrete class may do: bind [self.swarm] and
    make new objects; the other attributes and the existing list objects
    are left as they are. *)
Definition init_swarm_frame (init_swarm : stateful base.State unit) : Prop :=
  forall st,
    let st' := leaves init_swarm st in
    (forall name, name <> "swarm" ->
       base.self_attrs st' !! name = base.self_attrs st !! name) /\
    base.class_attrs st' = base.class_attrs st /\
    (forall l xs, base.heap st !! l = Some xs -> base.heap st' !! l = Some xs).

(** The value of a Python [int]; [bool] is a subclass of [int], with
    [True == 1] and [False == 0]. *)
Definition int_value (v : pyval) : option Z :=
  match v with
  | PyInt z => Some z
  | PyBool b => Some (Z.b2z b)
  | _ => None
  end.

Definition positive_integer (v : pyval) : Prop :=
  exists z, int_value v = Some z /\ (0 < z)%Z.

(** The state after [self.name = []]. *)
Definition fresh_history (name : string) (st : base.State) : base.State :=
  let l := fresh (dom (base.heap st)) in
  {| base.heap := <[l := []]> (base.heap st);
     base.class_attrs := base.class_attrs st;
     base.self_attrs := <[name := PyRef l]> (base.self_attrs st) |}.

(** The state [reset] hands to [_init_swarm]. *)
Definition cleared (st : base.State) : base.State :=
  fresh_history "velocity_history" (
  fresh_history "pos_history" (
  fresh_history "mean_neighbor_history" (
  fresh_history "mean_pbest_history" (
  fresh_history "cost_history" st)))).

(** The state [__init__] reaches before it looks at [ftol_iter]: the
    primary attributes are bound. *)
Definition configured
    (n_particles dimensions options velocity_clamp init_pos ftol : pyval)
    (st : base.State) : base.State :=
  {| base.heap := base.heap st;
     base.class_attrs := base.class_attrs st;
     base.self_attrs :=
       <["ftol" := ftol]> (
       <["init_pos" := init_pos]> (
       <["options" := options]> (
       <["swarm_size" := PyTuple [n_particles; dimensions]]> (
       <["velocity_clamp" := velocity_clamp]> (
       <["dimensions" := dimensions]> (
       <["n_particles" := n_particles]> (base.self_attrs st))))))) |}.

(** A new object, without attributes of its own. *)
Definition bare (st : base.State) : base.State :=
  {| base.heap := base.heap st;
     base.class_attrs := base.class_attrs st;
     base.self_attrs := ∅ |}.

Definition ftol_iter_message : string :=
  "ftol_iter expects an integer value greater than 0".

(** The state after [x] is appended to the list object at [l], which held
    [xs]. *)
Definition appended (l : nat) (xs : list pyval) (x : pyval) (st : base.State)
  : base.State :=
  {| base.heap := <[l := xs ++ [x]]> (base.heap st);
     base.class_attrs := base.class_attrs st;
     base.self_attrs := base.self_attrs st |}.

(** The history each field of a record goes to. *)
Definition history_entries (hist : base.ToHistory) : list (string * pyval) :=
  [("cost_history", base.best_cost hist);
   ("mean_pbest_history", base.mean_pbest_cost hist);
   ("mean_neighbor_history", base.mean_neighbor_cost hist);
   ("pos_history", base.position hist);
   ("velocity_history", base.velocity hist)].

(* ===================================================================== *)
(** * Sample data                                                        *)
(* ===================================================================== *)

(** Three particles in two dimensions: the first has improved, the second
    ties with its personal best, the third is worse. *)
Definition sample_swarm : Swarm := {|
  position := [[1; 2]; [3; 4]; [5; 6]]%float;
  velocity := [[0.5; 0.5]; [1; -1]; [2; 0]]%float;
  dimensions := 2;
  options := {| c1 := 0.5; c2 := 0.25; w := 0.75 |}%float;
  pbest_pos := [[10; 20]; [30; 40]; [50; 60]]%float;
  best_pos := [10; 20]%float;
  pbest_cost := [5; 5; 5]%float;
  best_cost := 5%float;
  current_cost := [4; 5; 6]%float
|}.

(** The sphere function [f(x) = sum(x**2)], row by row. *)
Definition sphere_row (row : list float) : float :=
  foldr (fun x acc => x * x + acc)%float 0%float row.

Definition sphere : Objective :=
  fun x _ => Ok (PyArr1 (map sphere_row x)).



(** An objective that raises on a matrix without rows and on no other. *)
Definition needs_rows : Objective :=
  fun x kw =>
    match x with
    | [] => Raise (ValueError "empty input")
    | _ => sphere x kw
    end.

(** The [_init_swarm] of a concrete optimizer: it binds [self.swarm]. *)
Definition sample_init_swarm : stateful base.State unit :=
  base.setattr "swarm" (PySwarm sample_swarm).

(** An optimizer of a concrete class, constructed with valid arguments. *)
Definition sample_optimizer : base.State :=
  leaves (base.construct sample_init_swarm (PyInt 3) (PyInt 2) PyNone PyNone
            PyNone (PyFloat neg_infinity) (PyInt 1)) base.class_defined.

Definition sample_record : base.ToHistory := {|
  base.best_cost := PyFloat 4;
  base.mean_pbest_cost := PyFloat 4.5;
  base.mean_neighbor_cost := PyFloat 4;
  base.position := PyArr2 2 (position sample_swarm);
  base.velocity := PyArr2 2 (velocity sample_swarm)
|}.

(* ===================================================================== *)
(** * The steps of a caller                                              *)
(* ===================================================================== *)

(** An assignment to attributes of the object a computation holds. *)
Definition modify {S} (f : S -> S) : stateful S unit :=
  fun s => (Ok tt, f s).

Definition set_pbest (pos : matrix) (cost : vector) (s : Swarm) : Swarm :=
  {| position := position s;
     velocity := velocity s;
     dimensions := dimensions s;
     options := options s;
     pbest_pos := pos;
     best_pos := best_pos s;
     pbest_cost := cost;
     best_cost := best_cost s;
     current_cost := current_cost s |}.

(** [swarm.pbest_pos, swarm.pbest_cost = compute_pbest(swarm)]: the call as
    the doc string of [compute_pbest] writes it. *)
Definition update_pbest : stateful Swarm unit :=
  r ← operators.compute_pbest ; modify (set_pbest r.1 r.2).

(** [swarm.position = pos; swarm.current_cost = cost]: what the position
    update and the evaluation assign between two personal-best updates. *)
Definition set_observation (pos : matrix) (cost : vector) (s : Swarm) : Swarm :=
  {| position := pos;
     velocity := velocity s;
     dimensions := dimensions s;
     options := options s;
     pbest_pos := pbest_pos s;
     best_pos := best_pos s;
     pbest_cost := pbest_cost s;
     best_cost := best_cost s;
     current_cost := cost |}.

(** A run of iterations, as far as the personal bests see it: in each one
    the particles are at new positions with new costs, and the personal
    bests are updated. *)
Fixpoint track (observations : list (matrix * vector)) : stateful Swarm unit :=
  match observations with
  | [] => mret tt
  | (pos, cost) :: rest =>
      _ ← modify (set_observation pos cost) ;
      _ ← update_pbest ;
      track rest
  end.

(** [for hist in records: self._populate_history(hist)]: one record per
    iteration of an optimizer's loop. *)
Fixpoint populate_all (records : list base.ToHistory) : stateful base.State unit :=
  match records with
  | [] => mret tt
  | hist :: rest => _ ← base._populate_history hist ; populate_all rest
  end.

(** What an optimizer does with its histories once it is constructed: it
    records an iteration, or it is reset. *)
Inductive lifecycle (init_swarm : stateful base.State unit)
  : base.State -> base.State -> Prop :=
| lifecycle_record (hist : base.ToHistory) (st : base.State) :
    lifecycle init_swarm st (leaves (base._populate_history hist) st)
| lifecycle_reset (st : base.State) :
    lifecycle init_swarm st (leaves (base.reset init_swarm) st).

(** The five histories hold [n] entries each. *)
Definition aligned (st : base.State) (n : nat) : Prop :=
  forall name, name ∈ history_names ->
    exists xs, history st name = Some xs /\ length xs = n.

(** The hyperparameters are bound to the objects given to the constructor. *)
Definition configured_with
    (n_particles dimensions options velocity_clamp init_pos ftol ftol_iter : pyval)
    (attrs : gmap string pyval) : Prop :=
  attrs !! "n_particles" = Some n_particles /\
  attrs !! "dimensions" = Some dimensions /\
  attrs !! "swarm_size" = Some (PyTuple [n_particles; dimensions]) /\
  attrs !! "options" = Some options /\
  attrs !! "velocity_clamp" = Some velocity_clamp /\
  attrs !! "init_pos" = Some init_pos /\
  attrs !! "ftol" = Some ftol /\
  attrs !! "ftol_iter" = Some ftol_iter.

(** An object numpy sees as an array without dimensions: a number, a
    string or [None]. *)
Definition zero_dimensional (v : pyval) : Prop :=
  match v with
  | PyNone | PyBool _ | PyInt _ | PyFloat _ | PyStr _ => True
  | _ => False
  end.


(** An objective that returns a matrix: [k] values per row, [values] giving
    those of one row. *)
Definition rowwise2 (objective_func : Objective) (kw : kwargs) (k : nat)
    (values : list float -> list float) : Prop :=
  (forall row, length (values row) = k) /\
  forall block, objective_func block kw = Ok (PyArr2 k (map values block)).

(** The row [compute_pbest] keeps for a particle. *)
Definition kept_row (improved : bool) (rows : list float * list float)
  : list float :=
  if improved then rows.2 else rows.1.

(** The field of a record each history takes. *)
Definition history_fields : list (string * (base.ToHistory -> pyval)) :=
  [("cost_history", base.best_cost);
   ("mean_pbest_history", base.mean_pbest_cost);
   ("mean_neighbor_history", base.mean_neighbor_cost);
   ("pos_history", base.position);
   ("velocity_history", base.velocity)].

(** An objective that returns one number for the whole block. *)
Definition total_cost : Objective :=
  fun x _ => Ok (PyFloat (foldr (fun row acc => sphere_row row + acc)%float
                            0%float x)).

(** An objective that returns two values for every row: the square of the
    norm and the number of coordinates. *)
Definition two_values : Objective :=
  fun x _ =>
    Ok (PyArr2 2 (map (fun row => [sphere_row row;
                                   foldr (fun _ n => n + 1)%float 0%float row])
                    x)).

(** A swarm on which one cost and one personal-best cost are NaN. *)
Definition nan_swarm : Swarm :=
  set_pbest (pbest_pos sample_swarm) [5; nan; 5]%float
    (set_observation (position sample_swarm) [nan; 1; 6]%float sample_swarm).

(** A swarm with one cost too many. *)
Definition ragged_swarm : Swarm :=
  set_observation [[1; 2]; [3; 4]; [5; 6]; [7; 8]]%float [4; 5; 6; 7]%float
    sample_swarm.

(** Less or equal in the order of binary64, on the specification side. *)
Definition SFle (x y : spec_float) : Prop :=
  SFcompare x y = Some Lt \/ SFcompare x y = Some Eq.

(* ===================================================================== *)
(** * Facts about the numpy operations                                   *)
(* ===================================================================== *)

Lemma elementwise_ok {A B C} (f : A -> B -> C) (a : list A) (b : list B) :
  length a = length b -> np.elementwise f a b = Ok (zip_with f a b).
Proof.
  intros E. unfold np.elementwise. rewrite E, Nat.eqb_refl. reflexivity.
Qed.

Section Elementwise2.
Context {A B C : Type} (f : A -> B -> C).

Lemma mapR_id_elementwise (a : list (list A)) (b : list (list B)) :
  Forall2 (fun r1 r2 => length r1 = length r2) a b ->
  mapR id (zip_with (np.elementwise f) a b) = Ok (zip_with (zip_with f) a b).
Proof.
  induction 1 as [|r1 r2 a b Hr _ IH]; [reflexivity|].
  cbn [zip_with mapR]. rewrite IH, (elementwise_ok f _ _ Hr). reflexivity.
Qed.

Lemma elementwise2_ok (a : list (list A)) (b : list (list B)) :
  Forall2 (fun r1 r2 => length r1 = length r2) a b ->
  np.elementwise2 f a b = Ok (zip_with (zip_with f) a b).
Proof.
  intros H. unfold np.elementwise2.
  rewrite elementwise_ok by (eapply Forall2_length; eassumption).
  simpl. apply mapR_id_elementwise, H.
Qed.

End Elementwise2.

Lemma same_shape_rows {A B} (N D : nat) (a : list (list A)) (b : list (list B)) :
  length a = N -> Forall (fun row => length row = D) a ->
  length b = N -> Forall (fun row => length row = D) b ->
  Forall2 (fun r1 r2 => length r1 = length r2) a b.
Proof.
  intros La Fa Lb Fb. subst N.
  revert b Lb Fb. induction Fa as [|r a Hr Fa IH]; intros [|r' b] Lb Fb;
    simpl in *; try discriminate; constructor.
  - inversion Fb; subst; congruence.
  - apply IH; [congruence | inversion Fb; assumption].
Qed.

Lemma choose_replicate {A} (c : bool) (x y : list A) :
  length x = length y ->
  zip_with np.choose (replicate (length x) c) (zip_with pair x y)
  = if c then x else y.
Proof.
  revert y. induction x as [|a x IH]; intros [|b y] E; simpl in *;
    try discriminate.
  - destruct c; reflexivity.
  - injection E as E. rewrite (IH y E). destruct c; reflexivity.
Qed.

(* ===================================================================== *)
(** * The order of binary64 and Python's [min]                           *)
(* ===================================================================== *)

Lemma SFcompare_antisym (x y : spec_float) (c : comparison) :
  SFcompare x y = Some c -> SFcompare y x = Some (CompOpp c).
Proof.
  destruct x as [sx|sx| |sx mx ex], y as [sy|sy| |sy my ey]; simpl;
    try discriminate;
    try (intros [= <-]; try destruct sx; try destruct sy; reflexivity).
  intros [= <-]. f_equal.
  destruct sx, sy; try reflexivity.
  - rewrite (Z.compare_antisym ex ey).
    destruct (ex ?= ey)%Z; simpl; try reflexivity.
    rewrite (Pos.compare_cont_antisym mx my Eq). reflexivity.
  - rewrite (Z.compare_antisym ex ey).
    destruct (ex ?= ey)%Z; simpl; try reflexivity.
    rewrite (Pos.compare_cont_antisym mx my Eq).
    destruct (Pos.compare_cont Eq mx my); reflexivity.
Qed.

Lemma SFcompare_not_nan (x y : spec_float) :
  SFcompare x x = Some Eq -> SFcompare y y = Some Eq ->
  exists c, SFcompare x y = Some c.
Proof.
  destruct x as [sx|sx| |sx mx ex], y as [sy|sy| |sy my ey]; simpl;
    try discriminate; eauto.
Qed.

Lemma is_nan_false (a : float) :
  is_nan a = false -> SFcompare (Prim2SF a) (Prim2SF a) = Some Eq.
Proof.
  unfold is_nan. rewrite FloatAxioms.eqb_spec. unfold SFeqb.
  destruct (SFcompare (Prim2SF a) (Prim2SF a)) as [[]|]; simpl;
    try discriminate; reflexivity.
Qed.

(** On costs that are numbers, Python's [min] is the least of the two. *)
Lemma py_min_least (a b : float) :
  is_nan a = false -> is_nan b = false ->
  (py_min a b <=? a)%float = true /\
  (py_min a b <=? b)%float = true /\
  (py_min a b = a \/ py_min a b = b).
Proof.
  intros Ha%is_nan_false Hb%is_nan_false.
  destruct (SFcompare_not_nan _ _ Hb Ha) as [c Hc].
  pose proof (SFcompare_antisym _ _ _ Hc) as Hc'.
  unfold py_min. rewrite FloatAxioms.ltb_spec. unfold SFltb. rewrite Hc.
  destruct c; rewrite !FloatAxioms.leb_spec; unfold SFleb;
    rewrite ?Ha, ?Hb, ?Hc, ?Hc'; simpl; auto.
Qed.

(* ===================================================================== *)
(** * compute_pbest                                                      *)
(* ===================================================================== *)

(** The arrays [compute_pbest] builds on a swarm of consistent shapes. *)
Lemma compute_pbest_run (N D : nat) (s : Swarm) :
  pbest_shapes N D s ->
  operators.compute_pbest s =
  (Ok (zip_with (zip_with np.choose)
         (np.invert2 (np.repeat_newaxis
            (zip_with PrimFloat.ltb (current_cost s) (pbest_cost s)) D))
         (zip_with (zip_with pair) (pbest_pos s) (position s)),
       zip_with np.choose
         (np.invert (zip_with PrimFloat.ltb (current_cost s) (pbest_cost s)))
         (zip_with pair (pbest_cost s) (current_cost s))), s).
Proof.
  intros (Hd & Hc & Hp & [Lpos Fpos] & [Lpb Fpb]).
  unfold operators.compute_pbest, mbind, stateful_bind, get, lift, mret,
    stateful_ret. cbn beta iota.
  unfold np.less. rewrite elementwise_ok by congruence.
  unfold np.where2, np.where1.
  rewrite (elementwise2_ok pair (pbest_pos s) (position s))
    by (eapply same_shape_rows; eassumption).
  cbn [mbind result_bind].
  rewrite elementwise2_ok.
  2:{ unfold np.invert2, np.repeat_newaxis. rewrite Hd.
      apply Forall2_same_length_lookup_2.
      - rewrite !length_map, !length_zip_with. lia.
      - intros i r1 r2 H1 H2.
        rewrite !list_lookup_fmap in H1.
        destruct (zip_with PrimFloat.ltb _ _ !! i) as [m|]; [|discriminate].
        injection H1 as <-.
        apply lookup_zip_with_Some in H2 as (pb & p & -> & Hpb & Hp').
        unfold np.invert. rewrite length_map, length_replicate, length_zip_with.
        rewrite Forall_lookup in Fpos, Fpb.
        rewrite (Fpos _ _ Hp'), (Fpb _ _ Hpb). lia. }
  cbn [mbind result_bind].
  rewrite (elementwise_ok pair) by congruence.
  cbn [mbind result_bind].
  rewrite elementwise_ok
    by (unfold np.invert; rewrite length_map, !length_zip_with; lia).
  rewrite Hd. reflexivity.
Qed.

(** C1. On a swarm whose arrays have consistent shapes (N particles, D
    dimensions), [compute_pbest] returns a pair of N personal-best positions
    and N personal-best costs; for every particle [i] the new cost is
    [min(old pbest_cost[i], current_cost[i])], the new position is
    [position[i]] when [current_cost[i] < pbest_cost[i]] and the old
    [pbest_pos[i]] otherwise; on a tie ([current_cost[i] == pbest_cost[i]])
    the old personal best (cost and position) is kept. [min] is Python's;
    on costs that are not NaN it is the least of the two in the order of
    binary64. *)
Theorem compute_pbest_spec (N D : nat) (s : Swarm) :
  pbest_shapes N D s ->
  exists new_pbest_pos new_pbest_cost,
    returns operators.compute_pbest s = Ok (new_pbest_pos, new_pbest_cost) /\
    length new_pbest_pos = N /\ length new_pbest_cost = N /\
    forall i cur old p pb,
      current_cost s !! i = Some cur ->
      pbest_cost s !! i = Some old ->
      position s !! i = Some p ->
      pbest_pos s !! i = Some pb ->
      new_pbest_cost !! i = Some (py_min old cur) /\
      new_pbest_pos !! i = Some (if (cur <? old)%float then p else pb) /\
      ((cur =? old)%float = true ->
         new_pbest_cost !! i = Some old /\ new_pbest_pos !! i = Some pb) /\
      (is_nan cur = false -> is_nan old = false ->
         (py_min old cur <=? old)%float = true /\
         (py_min old cur <=? cur)%float = true /\
         (py_min old cur = old \/ py_min old cur = cur)).
Proof.
  intros Hs. unfold returns. rewrite (compute_pbest_run N D s Hs).
  destruct Hs as (Hd & Hc & Hp & [Lpos Fpos] & [Lpb Fpb]).
  eexists _, _. split; [reflexivity|].
  split; [|split].
  - unfold np.invert2, np.repeat_newaxis.
    rewrite length_zip_with, !length_map, !length_zip_with. lia.
  - unfold np.invert. rewrite length_zip_with, length_map, !length_zip_with. lia.
  - intros i cur old p pb Hcur Hold Hpos Hpb.
    assert (Hm : zip_with PrimFloat.ltb (current_cost s) (pbest_cost s) !! i
                 = Some (cur <? old)%float)
      by (rewrite lookup_zip_with, Hcur, Hold; reflexivity).
    assert (Hcost : zip_with np.choose
         (np.invert (zip_with PrimFloat.ltb (current_cost s) (pbest_cost s)))
         (zip_with pair (pbest_cost s) (current_cost s)) !! i
         = Some (py_min old cur)).
    { rewrite lookup_zip_with. unfold np.invert.
      rewrite list_lookup_fmap, Hm, lookup_zip_with, Hold, Hcur. cbn.
      unfold py_min, np.choose. destruct (cur <? old)%float; reflexivity. }
    assert (Hrow : zip_with (zip_with np.choose)
         (np.invert2 (np.repeat_newaxis
            (zip_with PrimFloat.ltb (current_cost s) (pbest_cost s)) D))
         (zip_with (zip_with pair) (pbest_pos s) (position s)) !! i
         = Some (if (cur <? old)%float then p else pb)).
    { rewrite lookup_zip_with. unfold np.invert2, np.repeat_newaxis.
      rewrite !list_lookup_fmap, Hm, lookup_zip_with, Hpb, Hpos. cbn.
      rewrite Forall_lookup in Fpos, Fpb.
      pose proof (Fpos _ _ Hpos) as Lp. pose proof (Fpb _ _ Hpb) as Lb.
      unfold np.invert. rewrite <- Lb.
      change (map negb (replicate (length pb) (cur <? old)%float))
        with (negb <$> replicate (length pb) (cur <? old)%float).
      rewrite fmap_replicate.
      rewrite (choose_replicate (negb (cur <? old)%float) pb p) by congruence.
      destruct (cur <? old)%float; reflexivity. }
    split; [exact Hcost|]. split; [exact Hrow|].
    split; [|intros Hn1 Hn2; apply py_min_least; assumption].
    intros Htie.
    assert (Hlt : (cur <? old)%float = false).
    { rewrite FloatAxioms.ltb_spec. rewrite FloatAxioms.eqb_spec in Htie.
      unfold SFltb. unfold SFeqb in Htie.
      destruct (SFcompare (Prim2SF cur) (Prim2SF old)) as [[]|];
        try discriminate; reflexivity. }
    rewrite Hcost, Hrow. unfold py_min. rewrite Hlt. split; reflexivity.
Qed.

(* ===================================================================== *)
(** * np.array_split                                                     *)
(* ===================================================================== *)

Lemma length_cumsum_from (acc : nat) (l : list nat) :
  length (np.cumsum_from acc l) = length l.
Proof. revert acc. induction l; intros; simpl; auto. Qed.

Lemma cumsum_from_app (acc : nat) (l1 l2 : list nat) :
  np.cumsum_from acc (l1 ++ l2)
  = np.cumsum_from acc l1 ++ np.cumsum_from (acc + sum_list l1) l2.
Proof.
  revert acc. induction l1 as [|x l1 IH]; intros acc; simpl.
  - rewrite Nat.add_0_r. reflexivity.
  - rewrite IH, Nat.add_assoc. reflexivity.
Qed.

Lemma nth_cumsum_replicate (acc n x i : nat) :
  i < n -> nth i (np.cumsum_from acc (replicate n x)) 0 = acc + S i * x.
Proof.
  revert acc i. induction n as [|n IH]; intros acc i Hi; [lia|].
  destruct i as [|i]; simpl; [lia|].
  rewrite IH by lia. simpl. lia.
Qed.

Lemma div_points_nth (N P i : nat) :
  0 < P -> i <= P -> nth i (np.div_points N P) 0 = div_point N P i.
Proof.
  intros HP Hi. unfold np.div_points, np.cumsum, np.section_sizes, div_point.
  pose proof (Nat.mod_upper_bound N P ltac:(lia)) as Hr.
  set (q := N / P) in *. set (r := N mod P) in *.
  destruct i as [|i]; [reflexivity|].
  cbn [app np.cumsum_from nth]. rewrite cumsum_from_app, sum_list_replicate.
  destruct (decide (i < r)) as [Hlt|Hge].
  - rewrite app_nth1 by (rewrite length_cumsum_from, length_replicate; lia).
    rewrite nth_cumsum_replicate by lia. lia.
  - rewrite app_nth2 by (rewrite length_cumsum_from, length_replicate; lia).
    rewrite length_cumsum_from, length_replicate.
    rewrite nth_cumsum_replicate by lia. nia.
Qed.

Lemma div_point_0 (N P : nat) : div_point N P 0 = 0.
Proof. reflexivity. Qed.

Lemma div_point_step (N P i : nat) :
  div_point N P (S i)
  = div_point N P i + (if i <? N mod P then N / P + 1 else N / P).
Proof.
  unfold div_point. destruct (Nat.ltb_spec i (N mod P)); lia.
Qed.

Lemma div_point_last (N P : nat) : 0 < P -> div_point N P P = N.
Proof.
  intros HP. unfold div_point.
  pose proof (Nat.mod_upper_bound N P ltac:(lia)).
  pose proof (Nat.div_mod_eq N P). nia.
Qed.

Lemma div_point_mono (N P i j : nat) :
  i <= j -> div_point N P i <= div_point N P j.
Proof. intros H. unfold div_point. nia. Qed.

(** [array_split] cuts at the division points. *)
Lemma array_split_run {A} (ary : list A) (P : nat) :
  0 < P ->
  np.array_split ary P =
  Ok (map (fun i => np.slice (div_point (length ary) P i)
                             (div_point (length ary) P (S i)) ary)
          (seq 0 P)).
Proof.
  intros HP. unfold np.array_split.
  destruct (Nat.eqb_spec P 0) as [->|_]; [lia|]. f_equal.
  apply map_ext_in. intros i Hi%in_seq.
  rewrite !div_points_nth by lia. rewrite Nat.add_1_r. reflexivity.
Qed.

(** Consecutive slices at non-decreasing cut points, joined in order, give
    back the prefix up to the last cut. *)
Lemma concat_slices {A} (d : nat -> nat) (l : list A) (n : nat) :
  d 0 = 0 -> (forall i, d i <= d (S i)) ->
  concat (map (fun i => np.slice (d i) (d (S i)) l) (seq 0 n)) = take (d n) l.
Proof.
  intros H0 Hmono. induction n as [|n IH].
  - simpl. rewrite H0. reflexivity.
  - rewrite seq_S, map_app, concat_app, IH. simpl. rewrite app_nil_r.
    unfold np.slice.
    rewrite <- (take_drop (d n) (take (d (S n)) l)) at 2.
    rewrite take_take. f_equal. f_equal. specialize (Hmono n). lia.
Qed.

Lemma length_slice {A} (st en : nat) (l : list A) :
  st <= en -> en <= length l -> length (np.slice st en l) = en - st.
Proof.
  intros. unfold np.slice. rewrite length_drop, length_take. lia.
Qed.


(** What [array_split] returns: as many blocks as sections, which joined in
    order give back the array, the [i]-th of the stated size. *)
Lemma array_split_blocks {A} (ary : list A) (P : nat) :
  0 < P ->
  exists blocks,
    np.array_split ary P = Ok blocks /\
    length blocks = P /\
    concat blocks = ary /\
    forall i, i < P ->
      exists blk, blocks !! i = Some blk /\
        length blk = if i <? length ary mod P
                     then length ary / P + 1 else length ary / P.
Proof.
  intros HP. eexists. split; [apply array_split_run, HP|].
  set (N := length ary).
  split; [|split].
  - rewrite length_map, length_seq. reflexivity.
  - rewrite (concat_slices (div_point N P)).
    + rewrite div_point_last by exact HP. apply take_ge. reflexivity.
    + apply div_point_0.
    + intros i. apply div_point_mono. lia.
  - intros i Hi. eexists. split.
    + change (map ?f ?l) with (f <$> l).
      rewrite list_lookup_fmap, lookup_seq_lt by exact Hi. reflexivity.
    + cbn [Nat.add]. rewrite length_slice.
      * rewrite div_point_step. lia.
      * apply div_point_mono. lia.
      * etransitivity; [apply (div_point_mono N P (S i) P); lia|].
        rewrite div_point_last by exact HP. reflexivity.
Qed.

(* ===================================================================== *)
(** * Facts about [mapR] and [np.concatenate]                            *)
(* ===================================================================== *)

Lemma mapR_ok {A B} (g : A -> result B) (h : A -> B) (xs : list A) :
  (forall x, x ∈ xs -> g x = Ok (h x)) -> mapR g xs = Ok (map h xs).
Proof.
  induction xs as [|x xs IH]; intros H; [reflexivity|].
  cbn [mapR map]. rewrite (H x) by apply list_elem_of_here.
  cbn [mbind result_bind].
  rewrite IH by (intros y Hy; apply H; apply list_elem_of_further, Hy).
  reflexivity.
Qed.



Lemma mapM_as_arr1 (vs : list vector) :
  mapM np.as_arr1 (map PyArr1 vs) = Some vs.
Proof.
  induction vs as [|v vs IH]; [reflexivity|].
  cbn. rewrite IH. reflexivity.
Qed.

Lemma concatenate_arr1 (vs : list vector) :
  vs <> [] -> np.concatenate (map PyArr1 vs) = Ok (PyArr1 (concat vs)).
Proof.
  intros Hne. destruct vs as [|v vs]; [congruence|].
  unfold np.concatenate. cbn [map].
  change (PyArr1 v :: map PyArr1 vs) with (map PyArr1 (v :: vs)).
  rewrite mapM_as_arr1. reflexivity.
Qed.

(* ===================================================================== *)
(** * compute_objective_function                                         *)
(* ===================================================================== *)

Lemma objective_sequential_run (f : Objective) (kw : kwargs) (s : Swarm) :
  returns (operators.compute_objective_function f None kw) s
  = f (position s) kw.
Proof. reflexivity. Qed.

(** What a worker sends for a task. *)
Lemma worker_ok {A B} (func : A -> result B) (x : A) (v : B) :
  func x = Ok v -> worker func x = Ok v.
Proof. unfold worker. intros ->. reflexivity. Qed.





Lemma objective_parallel_run (f : Objective) (kw : kwargs) (pool : Pool)
    (s : Swarm) :
  returns (operators.compute_objective_function f (Some pool) kw) s
  = (blocks ← np.array_split (position s) (_processes pool) ;
     results ← mapR (worker (partial f kw)) blocks ;
     np.concatenate results).
Proof.
  unfold returns, operators.compute_objective_function, pool_map, mbind,
    stateful_bind, get, lift. cbn beta iota.
  destruct (np.array_split _ _) as [blocks|e]; [|reflexivity].
  cbn beta iota. unfold result_bind at 1.
  destruct (mapR _ _) as [results|e]; reflexivity.
Qed.

(** C2. For every swarm, every objective function that obeys the objective
    contract and every pool of [P >= 1] workers, the evaluation through the
    pool returns what the sequential evaluation [f(position)] returns, the
    vector of the costs of the particles in their order: the position matrix
    is split into [P] blocks of consecutive rows and the [P] result vectors
    are joined in the order of the blocks. *)
Theorem parallel_evaluation_equivalence (s : Swarm) (f : Objective)
    (kw : kwargs) (cost : list float -> float) (pool : Pool) :
  0 < _processes pool ->
  rowwise f kw cost ->
  returns (operators.compute_objective_function f (Some pool) kw) s
    = returns (operators.compute_objective_function f None kw) s /\
  returns (operators.compute_objective_function f (Some pool) kw) s
    = Ok (PyArr1 (map cost (position s))) /\
  exists blocks,
    np.array_split (position s) (_processes pool) = Ok blocks /\
    length blocks = _processes pool /\
    concat blocks = position s /\
    returns (operators.compute_objective_function f (Some pool) kw) s
      = Ok (PyArr1 (concat (map (map cost) blocks))).
Proof.
  intros HP Hf.
  destruct (array_split_blocks (position s) _ HP)
    as (blocks & Hsplit & Hlen & Hcat & _).
  assert (Hpar : returns (operators.compute_objective_function f (Some pool) kw) s
                 = Ok (PyArr1 (concat (map (map cost) blocks)))).
  { rewrite objective_parallel_run, Hsplit. cbn [mbind result_bind].
    rewrite (mapR_ok _ (fun b => PyArr1 (map cost b)))
      by (intros b _; apply worker_ok, Hf).
    cbn [mbind result_bind].
    rewrite <- (map_map (map cost) PyArr1).
    apply concatenate_arr1.
    intros E. apply (f_equal length) in E.
    rewrite length_map, Hlen in E. simpl in E. lia. }
  assert (Hseq : returns (operators.compute_objective_function f None kw) s
                 = Ok (PyArr1 (map cost (position s))))
    by (rewrite objective_sequential_run; apply Hf).
  assert (Hjoin : concat (map (map cost) blocks) = map cost (position s))
    by (rewrite <- Hcat, concat_map; reflexivity).
  split; [rewrite Hpar, Hseq, Hjoin; reflexivity|].
  split; [rewrite Hpar, Hjoin; reflexivity|].
  exists blocks. auto.
Qed.

(** C10. In sequential mode [compute_objective_function] returns exactly
    what [objective_func(position, **kwargs)] returns or raises: the result
    is not inspected, and an object of any type or shape is handed to the
    caller as it is. *)
Theorem sequential_evaluation_unchecked (s : Swarm) (kw : kwargs) :
  (forall f : Objective,
     returns (operators.compute_objective_function f None kw) s
     = f (position s) kw) /\
  (forall v : pyval,
     returns (operators.compute_objective_function (fun _ _ => Ok v) None kw) s
     = Ok v).
Proof. split; reflexivity. Qed.




(* ===================================================================== *)
(** * compute_position                                                   *)
(* ===================================================================== *)

(** The tentative position: the elementwise sum of position and velocity. *)
Lemma tentative_position (N D : nat) (s : Swarm) :
  position_shapes N D s ->
  np.add (np.copy (position s)) (velocity s)
  = Ok (zip_with (zip_with PrimFloat.add) (position s) (velocity s)).
Proof.
  intros ([Lp Fp] & [Lv Fv]). unfold np.add, np.copy.
  apply elementwise2_ok. eapply same_shape_rows; eassumption.
Qed.

(** C3. On a swarm whose position and velocity have the same shape,
    [compute_position] without bounds returns the elementwise sum
    [position + velocity], a matrix of the same shape; with bounds it
    returns what the boundary handler returns (or raises) on that sum and
    the bounds, and nothing else is applied to it. *)
Theorem compute_position_spec (N D : nat) (s : Swarm) (bh : BoundaryHandler) :
  position_shapes N D s ->
  exists tentative,
    returns (operators.compute_position None bh) s = Ok tentative /\
    (forall bounds,
       returns (operators.compute_position (Some bounds) bh) s
       = bh tentative bounds) /\
    has_shape N D tentative /\
    (forall i j row vrow x v,
       position s !! i = Some row -> row !! j = Some x ->
       velocity s !! i = Some vrow -> vrow !! j = Some v ->
       exists trow, tentative !! i = Some trow /\
                    trow !! j = Some (x + v)%float).
Proof.
  intros Hs. pose proof (tentative_position N D s Hs) as Hadd.
  destruct Hs as ([Lp Fp] & [Lv Fv]).
  exists (zip_with (zip_with PrimFloat.add) (position s) (velocity s)).
  split; [|split; [|split]].
  - unfold returns, operators.compute_position, mbind, stateful_bind, get, lift.
    cbn beta iota. rewrite Hadd. reflexivity.
  - intros bounds.
    unfold returns, operators.compute_position, mbind, stateful_bind, get, lift.
    cbn beta iota. rewrite Hadd. cbn beta iota.
    destruct (bh _ bounds); reflexivity.
  - split; [rewrite length_zip_with; lia|].
    apply Forall_lookup. intros i row Hrow.
    apply lookup_zip_with_Some in Hrow as (p & v & -> & Hp & Hv).
    rewrite Forall_lookup in Fp, Fv.
    rewrite length_zip_with, (Fp _ _ Hp), (Fv _ _ Hv). lia.
  - intros i j row vrow x v Hrow Hx Hvrow Hv.
    exists (zip_with PrimFloat.add row vrow). split.
    + rewrite lookup_zip_with, Hrow, Hvrow. reflexivity.
    + rewrite lookup_zip_with, Hx, Hv. reflexivity.
Qed.

(* ===================================================================== *)
(** * The operators assign nothing to the swarm                          *)
(* ===================================================================== *)

Lemma readonly_get {S A} (field : S -> A) : readonly (get field).
Proof. intros s. reflexivity. Qed.

Lemma readonly_lift {S A} (r : result A) : readonly (@lift S A r).
Proof. intros s. reflexivity. Qed.

Lemma readonly_ret {S A} (a : A) : readonly (mret a : stateful S A).
Proof. intros s. reflexivity. Qed.

Lemma readonly_bind {S A B} (m : stateful S A) (k : A -> stateful S B) :
  readonly m -> (forall a, readonly (k a)) -> readonly (m ≫= k).
Proof.
  intros Hm Hk s. specialize (Hm s). unfold leaves, mbind, stateful_bind in *.
  destruct (m s) as [[a|e] s']; simpl in Hm; subst s'; [apply Hk|reflexivity].
Qed.

Create HintDb readonly.
#[local] Hint Resolve readonly_get readonly_lift readonly_ret : readonly.
#[local] Hint Extern 2 (readonly (_ ≫= _)) =>
  apply readonly_bind; [|intros] : readonly.
#[local] Hint Extern 3 (readonly (match ?o with Some _ => _ | None => _ end)) =>
  destruct o : readonly.

(** C4. [compute_pbest] and [compute_position] (with or without bounds;
    the handler receives the tentative position and the bounds, not the
    swarm) leave every attribute of the swarm as it was, whether they return
    or raise: what they compute is only returned. *)
Theorem operators_leave_swarm_unchanged (s : Swarm) :
  leaves operators.compute_pbest s = s /\
  (forall bh, leaves (operators.compute_position None bh) s = s) /\
  (forall bounds bh, leaves (operators.compute_position bounds bh) s = s).
Proof.
  assert (H1 : readonly operators.compute_pbest)
    by (unfold operators.compute_pbest; auto 20 with readonly).
  assert (H2 : forall bounds bh, readonly (operators.compute_position bounds bh))
    by (intros; unfold operators.compute_position; auto 20 with readonly).
  split; [apply H1|]. split; intros; apply H2.
Qed.

(* ===================================================================== *)
(** * BaseSwarmOptimizer: the constructor                                *)
(* ===================================================================== *)

Lemma gt_zero_positive_integer (v : pyval) :
  positive_integer v ->
  base.gt_zero v = Ok true /\ base.isinstance_int v = true.
Proof.
  intros (z & Hv & Hz). destruct v; try discriminate; simpl in *.
  - injection Hv as <-. destruct b; [auto|simpl in Hz; lia].
  - injection Hv as <-. split; [|reflexivity]. f_equal. apply Z.ltb_lt, Hz.
Qed.

Lemma gt_zero_not_positive_integer (v : pyval) :
  ~ positive_integer v ->
  (exists b, base.gt_zero v = Ok b /\ b && base.isinstance_int v = false) \/
  (exists msg, base.gt_zero v = Raise (TypeError msg)) \/
  (exists msg, base.gt_zero v = Raise (ValueError msg)).
Proof.
  intros Hn. destruct v as [|b|z|x|str|items|vec|c rows|sw|l]; simpl; eauto.
  - left. exists b. split; [reflexivity|]. destruct b; [|reflexivity].
    exfalso. apply Hn. exists 1%Z. split; [reflexivity|lia].
  - left. eexists. split; [reflexivity|].
    destruct (Z.ltb_spec 0 z); [|reflexivity].
    exfalso. apply Hn. exists z. split; [reflexivity|assumption].
  - left. eexists. split; [reflexivity|]. apply andb_false_r.
  - destruct vec as [|x [|y vec]]; eauto.
    left. eexists. split; [reflexivity|]. apply andb_false_r.
  - destruct rows as [|[|x [|y row]] [|row' rows]]; eauto.
    left. eexists. split; [reflexivity|]. apply andb_false_r.
Qed.

(* ===================================================================== *)
(** * BaseSwarmOptimizer: reset                                          *)
(* ===================================================================== *)

Lemma reset_run (init_swarm : stateful base.State unit) (st : base.State) :
  base.reset init_swarm st = init_swarm (cleared st).
Proof. reflexivity. Qed.

Section FreshHistory.
Context (name : string) (st : base.State).

Lemma fresh_history_ref :
  history_ref (fresh_history name st) name
  = Some (fresh (dom (base.heap st))).
Proof.
  unfold history_ref, resolve, fresh_history. cbn [base.self_attrs].
  rewrite lookup_insert_eq. reflexivity.
Qed.

Lemma fresh_history_new : history (fresh_history name st) name = Some [].
Proof.
  unfold history. rewrite fresh_history_ref. cbn.
  apply lookup_insert_eq.
Qed.

Lemma fresh_history_heap (l : nat) (xs : list pyval) :
  base.heap st !! l = Some xs ->
  base.heap (fresh_history name st) !! l = Some xs.
Proof.
  intros H. unfold fresh_history. cbn [base.heap].
  rewrite lookup_insert_ne; [exact H|].
  intros <-. pose proof (is_fresh (dom (base.heap st))) as Hf.
  apply Hf, elem_of_dom. eauto.
Qed.

Lemma fresh_history_dom :
  dom (base.heap (fresh_history name st))
  = {[fresh (dom (base.heap st))]} ∪ dom (base.heap st).
Proof. unfold fresh_history. cbn [base.heap]. apply dom_insert_L. Qed.

Lemma fresh_history_self (name' : string) :
  name' <> name ->
  base.self_attrs (fresh_history name st) !! name'
  = base.self_attrs st !! name'.
Proof.
  intros Hne. unfold fresh_history. cbn [base.self_attrs].
  apply lookup_insert_ne. congruence.
Qed.

Lemma fresh_history_ref_other (name' : string) :
  name' <> name ->
  history_ref (fresh_history name st) name' = history_ref st name'.
Proof.
  intros Hne. unfold history_ref, resolve.
  rewrite fresh_history_self by exact Hne. reflexivity.
Qed.

Lemma fresh_history_other (name' : string) (xs : list pyval) :
  name' <> name ->
  history st name' = Some xs ->
  history (fresh_history name st) name' = Some xs.
Proof.
  intros Hne. unfold history. rewrite fresh_history_ref_other by exact Hne.
  destruct (history_ref st name') as [l|]; [|discriminate]. cbn.
  apply fresh_history_heap.
Qed.

End FreshHistory.

Lemma cleared_self (st : base.State) (name : string) :
  name ∉ history_names ->
  base.self_attrs (cleared st) !! name = base.self_attrs st !! name.
Proof.
  intros Hn. unfold cleared.
  rewrite !fresh_history_self; [reflexivity|..];
    intros ->; apply Hn; unfold history_names; set_solver.
Qed.

Lemma cleared_heap (st : base.State) (l : nat) (xs : list pyval) :
  base.heap st !! l = Some xs -> base.heap (cleared st) !! l = Some xs.
Proof. intros H. unfold cleared. repeat apply fresh_history_heap. exact H. Qed.

Lemma cleared_history (st : base.State) (name : string) :
  name ∈ history_names -> history (cleared st) name = Some [].
Proof.
  unfold history_names, cleared. intros H.
  repeat (apply elem_of_cons in H as [->|H]);
    [..|inversion H];
    repeat first [ apply fresh_history_new
                 | apply fresh_history_other; [discriminate|] ].
Qed.

Lemma frame_history (init_swarm : stateful base.State unit)
    (st : base.State) (name : string) (xs : list pyval) :
  init_swarm_frame init_swarm -> name <> "swarm" ->
  history st name = Some xs ->
  history (leaves init_swarm st) name = Some xs.
Proof.
  intros Hf Hne. destruct (Hf st) as (Hself & Hcls & Hheap).
  unfold history, history_ref, resolve.
  rewrite (Hself name Hne), Hcls.
  destruct (base.self_attrs st !! name) as [v|];
    [|destruct (base.class_attrs st !! name) as [v|]];
    try discriminate; destruct v; try discriminate; cbn; apply Hheap.
Qed.

(** C7. Whatever the state of the optimizer, after [reset()] (with an
    [_init_swarm] that binds the swarm and leaves the other attributes
    alone) each of the five history attributes is an empty list, and each
    configured hyperparameter is bound as before; the class attributes and
    the list objects that existed before are as they were. *)
Theorem reset_spec (init_swarm : stateful base.State unit) (st : base.State) :
  init_swarm_frame init_swarm ->
  let st' := leaves (base.reset init_swarm) st in
  (forall name, name ∈ history_names -> history st' name = Some []) /\
  (forall name, name ∈ hyperparameter_names ->
     base.self_attrs st' !! name = base.self_attrs st !! name /\
     resolve st' name = resolve st name) /\
  base.class_attrs st' = base.class_attrs st /\
  (forall l xs, base.heap st !! l = Some xs -> base.heap st' !! l = Some xs).
Proof.
  intros Hf st'. subst st'. unfold leaves. rewrite reset_run.
  fold (leaves init_swarm (cleared st)).
  destruct (Hf (cleared st)) as (Hself & Hcls & Hheap).
  assert (Hparam : forall name, name ∈ hyperparameter_names ->
            base.self_attrs (leaves init_swarm (cleared st)) !! name
            = base.self_attrs st !! name).
  { intros name Hn. rewrite Hself, cleared_self; [reflexivity|..].
    - intros Hh. revert Hn Hh. unfold hyperparameter_names, history_names.
      clear. intros Hn Hh.
      repeat (apply elem_of_cons in Hn as [->|Hn]); [..|inversion Hn];
        repeat (apply elem_of_cons in Hh as [Hh|Hh]; [discriminate|]);
        inversion Hh.
    - intros ->. revert Hn. unfold hyperparameter_names. clear. intros Hn.
      repeat (apply elem_of_cons in Hn as [Hn|Hn]; [discriminate|]).
      inversion Hn. }
  split; [|split; [|split]].
  - intros name Hn. apply frame_history; [exact Hf| |apply cleared_history, Hn].
    intros ->. revert Hn. unfold history_names. clear. intros Hn.
    repeat (apply elem_of_cons in Hn as [Hn|Hn]; [discriminate|]).
    inversion Hn.
  - intros name Hn. split; [apply Hparam, Hn|].
    unfold resolve. rewrite (Hparam name Hn), Hcls. reflexivity.
  - exact Hcls.
  - intros l xs H. apply Hheap, cleared_heap, H.
Qed.

(* ===================================================================== *)
(** * BaseSwarmOptimizer: the check of [ftol_iter]                        *)
(* ===================================================================== *)

Section Constructor.
Context (init_swarm : stateful base.State unit).
Context (n_particles dimensions options velocity_clamp init_pos ftol : pyval).
Context (ftol_iter : pyval) (st : base.State).

Let init :=
  base.__init__ init_swarm n_particles dimensions options velocity_clamp
    init_pos ftol ftol_iter.
Let st0 :=
  configured n_particles dimensions options velocity_clamp init_pos ftol st.

Lemma init_run_raise (e : exn) :
  base.gt_zero ftol_iter = Raise e -> init st = (Raise e, st0).
Proof.
  intros H. subst init st0.
  unfold base.__init__, mbind, stateful_bind, base.setattr, lift.
  cbn beta iota. rewrite H. reflexivity.
Qed.

Lemma init_run_assert (b : bool) :
  base.gt_zero ftol_iter = Ok b ->
  b && base.isinstance_int ftol_iter = false ->
  init st = (Raise (AssertionError ftol_iter_message), st0).
Proof.
  intros H Hb. subst init st0.
  unfold base.__init__, mbind, stateful_bind, base.setattr, lift.
  cbn beta iota. rewrite H. cbn beta iota. rewrite Hb. reflexivity.
Qed.

Lemma init_run_accept :
  base.gt_zero ftol_iter = Ok true ->
  base.isinstance_int ftol_iter = true ->
  init st = init_swarm (cleared (leaves (base.setattr "ftol_iter" ftol_iter) st0)).
Proof.
  intros H Hb. subst init st0.
  unfold base.__init__, mbind, stateful_bind, base.setattr, lift.
  cbn beta iota. rewrite H. cbn beta iota. rewrite Hb. reflexivity.
Qed.

End Constructor.

(** C6. When [ftol_iter] is not a positive integer, the constructor raises
    ([AssertionError]; [TypeError] or [ValueError] when the object does not
    compare with [0]), before [reset] runs: the caller receives no
    instance, no history list is made and [ftol_iter] is never bound, to
    that or to another value. When it is a positive integer (and the
    [_init_swarm] of the concrete class returns) the constructor returns the
    instance, on which [ftol_iter] is bound to the object passed. *)
Theorem constructor_checks_ftol_iter (init_swarm : stateful base.State unit)
    (n_particles dimensions options velocity_clamp init_pos ftol : pyval)
    (ftol_iter : pyval) (st : base.State) :
  let new :=
    base.construct init_swarm n_particles dimensions options velocity_clamp
      init_pos ftol ftol_iter in
  (~ positive_integer ftol_iter ->
     exists e, returns new st = Raise e /\
       (e = AssertionError ftol_iter_message \/
        (exists msg, e = TypeError msg) \/ (exists msg, e = ValueError msg)) /\
       base.heap (leaves new st) = base.heap st /\
       base.self_attrs (leaves new st) !! "ftol_iter" = None) /\
  (positive_integer ftol_iter ->
     init_swarm_frame init_swarm ->
     (forall st1, returns init_swarm st1 = Ok tt) ->
     exists self, returns new st = Ok self /\
       self !! "ftol_iter" = Some ftol_iter /\
       base.self_attrs (leaves new st) = self).
Proof.
  intros new. subst new. unfold returns, leaves, base.construct.
  fold (bare st). split.
  - intros Hn.
    destruct (gt_zero_not_positive_integer _ Hn)
      as [(b & Hg & Hb)|[[msg Hg]|[msg Hg]]].
    + rewrite (init_run_assert _ _ _ _ _ _ _ _ _ b Hg Hb). cbn.
      eexists. split; [reflexivity|]. split; [left; reflexivity|].
      split; reflexivity.
    + rewrite (init_run_raise _ _ _ _ _ _ _ _ _ _ Hg). cbn.
      eexists. split; [reflexivity|]. split; [right; left; eauto|].
      split; reflexivity.
    + rewrite (init_run_raise _ _ _ _ _ _ _ _ _ _ Hg). cbn.
      eexists. split; [reflexivity|]. split; [right; right; eauto|].
      split; reflexivity.
  - intros Hp Hf Hok.
    destruct (gt_zero_positive_integer _ Hp) as [Hg Hi].
    rewrite (init_run_accept _ _ _ _ _ _ _ _ _ Hg Hi).
    set (st1 := cleared _).
    specialize (Hok st1). unfold returns in Hok.
    destruct (Hf st1) as (Hself & _ & _). unfold leaves in Hself.
    destruct (init_swarm st1) as [r st2]. cbn in Hok, Hself. subst r. cbn.
    eexists. split; [reflexivity|]. split; [|reflexivity].
    rewrite Hself by discriminate. subst st1.
    unfold cleared, fresh_history. cbn [base.self_attrs].
    rewrite !lookup_insert_ne by discriminate. apply lookup_insert_eq.
Qed.

(* ===================================================================== *)
(** * BaseSwarmOptimizer: _populate_history                              *)
(* ===================================================================== *)

Lemma history_ref_resolve (st : base.State) (name : string) (l : nat) :
  history_ref st name = Some l -> resolve st name = Some (PyRef l).
Proof.
  unfold history_ref. destruct (resolve st name) as [[]|]; congruence.
Qed.

Lemma getattr_run (st : base.State) (name : string) (v : pyval) :
  resolve st name = Some v -> base.getattr name st = (Ok v, st).
Proof.
  unfold resolve, base.getattr.
  destruct (base.self_attrs st !! name); [congruence|].
  intros ->. reflexivity.
Qed.

Section Append.
Context (st : base.State) (name : string) (l : nat) (xs : list pyval).
Context (x : pyval).
Hypothesis Href : history_ref st name = Some l.
Hypothesis Hxs : base.heap st !! l = Some xs.

Lemma append_last :
  (h ← base.getattr name ; base.list_append h x) st
  = (Ok tt, appended l xs x st).
Proof.
  unfold mbind, stateful_bind.
  rewrite (getattr_run _ _ _ (history_ref_resolve _ _ _ Href)).
  unfold base.list_append. rewrite Hxs. reflexivity.
Qed.

Lemma append_then {B} (k : stateful base.State B) :
  (h ← base.getattr name ; _ ← base.list_append h x ; k) st
  = k (appended l xs x st).
Proof.
  unfold mbind, stateful_bind.
  rewrite (getattr_run _ _ _ (history_ref_resolve _ _ _ Href)).
  unfold base.list_append. rewrite Hxs. reflexivity.
Qed.

Lemma appended_ref (name' : string) :
  history_ref (appended l xs x st) name' = history_ref st name'.
Proof. reflexivity. Qed.

Lemma appended_same : base.heap (appended l xs x st) !! l = Some (xs ++ [x]).
Proof. apply lookup_insert_eq. Qed.

Lemma appended_other (l' : nat) :
  l' <> l -> base.heap (appended l xs x st) !! l' = base.heap st !! l'.
Proof. intros H. apply lookup_insert_ne. congruence. Qed.

End Append.

(** The references behind the five histories, one by one. *)
Lemma distinct_histories_inv (st : base.State) :
  distinct_histories st ->
  exists l1 l2 l3 l4 l5 x1 x2 x3 x4 x5,
    history_ref st "cost_history" = Some l1 /\
    history_ref st "mean_pbest_history" = Some l2 /\
    history_ref st "mean_neighbor_history" = Some l3 /\
    history_ref st "pos_history" = Some l4 /\
    history_ref st "velocity_history" = Some l5 /\
    NoDup [l1; l2; l3; l4; l5] /\
    base.heap st !! l1 = Some x1 /\ base.heap st !! l2 = Some x2 /\
    base.heap st !! l3 = Some x3 /\ base.heap st !! l4 = Some x4 /\
    base.heap st !! l5 = Some x5.
Proof.
  intros (ls & Hmap & Hnd & Hall). unfold history_names in Hmap.
  cbn [mapM] in Hmap.
  destruct (history_ref st "cost_history") as [l1|]; [|discriminate].
  destruct (history_ref st "mean_pbest_history") as [l2|]; [|discriminate].
  destruct (history_ref st "mean_neighbor_history") as [l3|]; [|discriminate].
  destruct (history_ref st "pos_history") as [l4|]; [|discriminate].
  destruct (history_ref st "velocity_history") as [l5|]; [|discriminate].
  cbn in Hmap. injection Hmap as <-.
  repeat (apply Forall_cons in Hall as [[? ?] Hall]).
  exists l1, l2, l3, l4, l5. eauto 20.
Qed.

(** The state [_populate_history] reaches. *)
Lemma populate_history_run (hist : base.ToHistory) (st : base.State)
    (l1 l2 l3 l4 l5 : nat) (x1 x2 x3 x4 x5 : list pyval) :
  history_ref st "cost_history" = Some l1 ->
  history_ref st "mean_pbest_history" = Some l2 ->
  history_ref st "mean_neighbor_history" = Some l3 ->
  history_ref st "pos_history" = Some l4 ->
  history_ref st "velocity_history" = Some l5 ->
  NoDup [l1; l2; l3; l4; l5] ->
  base.heap st !! l1 = Some x1 -> base.heap st !! l2 = Some x2 ->
  base.heap st !! l3 = Some x3 -> base.heap st !! l4 = Some x4 ->
  base.heap st !! l5 = Some x5 ->
  base._populate_history hist st =
  (Ok tt,
   appended l5 x5 (base.velocity hist) (
   appended l4 x4 (base.position hist) (
   appended l3 x3 (base.mean_neighbor_cost hist) (
   appended l2 x2 (base.mean_pbest_cost hist) (
   appended l1 x1 (base.best_cost hist) st))))).
Proof.
  intros R1 R2 R3 R4 R5 Hnd X1 X2 X3 X4 X5.
  assert (Hne : l1 <> l2 /\ l1 <> l3 /\ l1 <> l4 /\ l1 <> l5 /\ l2 <> l3 /\
                l2 <> l4 /\ l2 <> l5 /\ l3 <> l4 /\ l3 <> l5 /\ l4 <> l5).
  { repeat (apply NoDup_cons in Hnd as [? Hnd]).
    rewrite ?elem_of_cons, ?elem_of_nil in *. intuition congruence. }
  destruct Hne as (N12 & N13 & N14 & N15 & N23 & N24 & N25 & N34 & N35 & N45).
  set (s1 := appended l1 x1 (base.best_cost hist) st).
  set (s2 := appended l2 x2 (base.mean_pbest_cost hist) s1).
  set (s3 := appended l3 x3 (base.mean_neighbor_cost hist) s2).
  set (s4 := appended l4 x4 (base.position hist) s3).
  unfold base._populate_history.
  rewrite (append_then st _ l1 x1 _ R1 X1). fold s1.
  rewrite (append_then s1 _ l2 x2 _ R2); fold s2;
    [|unfold s1; rewrite appended_other by congruence; exact X2].
  rewrite (append_then s2 _ l3 x3 _ R3); fold s3;
    [|unfold s2, s1; rewrite !appended_other by congruence; exact X3].
  rewrite (append_then s3 _ l4 x4 _ R4); fold s4;
    [|unfold s3, s2, s1; rewrite !appended_other by congruence; exact X4].
  rewrite (append_last s4 _ l5 x5 _ R5); [reflexivity|].
  unfold s4, s3, s2, s1; rewrite !appended_other by congruence; exact X5.
Qed.

(** C8. On an optimizer whose five history attributes refer to five
    different lists (as they do from [reset] on), [_populate_history(h)]
    returns, and each history is what it was followed by one entry, the
    field of [h] that belongs to it: the length grows by one, the last
    element is the field, the earlier entries are as they were. No
    attribute is rebound and no other list object is touched. *)
Theorem populate_history_spec (hist : base.ToHistory) (st : base.State) :
  distinct_histories st ->
  let st' := leaves (base._populate_history hist) st in
  returns (base._populate_history hist) st = Ok tt /\
  (forall name entry, (name, entry) ∈ history_entries hist ->
     exists xs, history st name = Some xs /\
                history st' name = Some (xs ++ [entry]) /\
                length (xs ++ [entry]) = S (length xs) /\
                last (xs ++ [entry]) = Some entry /\
                take (length xs) (xs ++ [entry]) = xs) /\
  base.self_attrs st' = base.self_attrs st /\
  base.class_attrs st' = base.class_attrs st /\
  (forall l, (forall name, name ∈ history_names -> history_ref st name <> Some l) ->
     base.heap st' !! l = base.heap st !! l).
Proof.
  intros Hd st'.
  destruct (distinct_histories_inv st Hd)
    as (l1 & l2 & l3 & l4 & l5 & x1 & x2 & x3 & x4 & x5 &
        R1 & R2 & R3 & R4 & R5 & Hnd & X1 & X2 & X3 & X4 & X5).
  assert (Hne : l1 <> l2 /\ l1 <> l3 /\ l1 <> l4 /\ l1 <> l5 /\ l2 <> l3 /\
                l2 <> l4 /\ l2 <> l5 /\ l3 <> l4 /\ l3 <> l5 /\ l4 <> l5).
  { pose proof Hnd as Hnd'. repeat (apply NoDup_cons in Hnd' as [? Hnd']).
    rewrite ?elem_of_cons, ?elem_of_nil in *. intuition congruence. }
  destruct Hne as (N12 & N13 & N14 & N15 & N23 & N24 & N25 & N34 & N35 & N45).
  pose proof (populate_history_run hist st _ _ _ _ _ _ _ _ _ _
                R1 R2 R3 R4 R5 Hnd X1 X2 X3 X4 X5) as Hrun.
  set (s1 := appended l1 x1 (base.best_cost hist) st) in *.
  set (s2 := appended l2 x2 (base.mean_pbest_cost hist) s1) in *.
  set (s3 := appended l3 x3 (base.mean_neighbor_cost hist) s2) in *.
  set (s4 := appended l4 x4 (base.position hist) s3) in *.
  set (s5 := appended l5 x5 (base.velocity hist) s4) in *.
  subst st'. unfold returns, leaves. rewrite Hrun. cbn [fst snd].
  split; [reflexivity|].
  assert (Hfinal : forall name l xs x,
            history_ref st name = Some l -> base.heap st !! l = Some xs ->
            base.heap s5 !! l = Some (xs ++ [x]) ->
            exists xs0, history st name = Some xs0 /\
              history s5 name = Some (xs0 ++ [x]) /\
              length (xs0 ++ [x]) = S (length xs0) /\
              last (xs0 ++ [x]) = Some x /\
              take (length xs0) (xs0 ++ [x]) = xs0).
  { intros name l xs x Hr Hx H5. exists xs. unfold history.
    change (history_ref s5 name) with (history_ref st name). rewrite Hr. cbn.
    split; [exact Hx|]. split; [exact H5|].
    split; [rewrite length_app; simpl; lia|].
    split; [apply last_snoc|]. apply take_app_length. }
  split; [|split; [reflexivity|split; [reflexivity|]]].
  - intros name entry Hin. unfold history_entries in Hin.
    repeat (apply elem_of_cons in Hin as [[= -> ->]|Hin]); [..|inversion Hin].
    + apply (Hfinal _ l1 x1); [exact R1|exact X1|].
      unfold s5, s4, s3, s2. rewrite !appended_other by congruence.
      apply appended_same.
    + apply (Hfinal _ l2 x2); [exact R2|exact X2|].
      unfold s5, s4, s3. rewrite !appended_other by congruence.
      apply appended_same.
    + apply (Hfinal _ l3 x3); [exact R3|exact X3|].
      unfold s5, s4. rewrite !appended_other by congruence.
      apply appended_same.
    + apply (Hfinal _ l4 x4); [exact R4|exact X4|].
      unfold s5. rewrite !appended_other by congruence.
      apply appended_same.
    + apply (Hfinal _ l5 x5); [exact R5|exact X5|]. apply appended_same.
  - intros l Hl.
    assert (l <> l1 /\ l <> l2 /\ l <> l3 /\ l <> l4 /\ l <> l5) as (?&?&?&?&?).
    { unfold history_names in Hl.
      repeat split; intros E; rewrite E in Hl;
        [ apply (Hl "cost_history") | apply (Hl "mean_pbest_history")
        | apply (Hl "mean_neighbor_history") | apply (Hl "pos_history")
        | apply (Hl "velocity_history") ];
        solve [ assumption | repeat constructor ]. }
    unfold s5, s4, s3, s2, s1. rewrite !appended_other by congruence.
    reflexivity.
Qed.

(* ===================================================================== *)
(** * The histories stay five different lists                            *)
(* ===================================================================== *)

Lemma distinct_histories_transfer (st st' : base.State) :
  (forall name, name ∈ history_names ->
     history_ref st' name = history_ref st name) ->
  (forall l, is_Some (base.heap st !! l) -> is_Some (base.heap st' !! l)) ->
  distinct_histories st -> distinct_histories st'.
Proof.
  intros Href Hheap (ls & Hmap & Hnd & Hall). exists ls.
  split; [|split; [exact Hnd|]].
  - rewrite <- Hmap. unfold history_names. cbn [mapM].
    rewrite !Href by (unfold history_names; repeat constructor).
    reflexivity.
  - eapply Forall_impl; [exact Hall|]. exact Hheap.
Qed.

(** The class body makes five different lists. *)
Lemma class_defined_distinct : distinct_histories base.class_defined.
Proof.
  exists [0; 1; 2; 3; 4]. split; [reflexivity|]. split.
  - repeat (apply NoDup_cons; split;
              [intros H; repeat (apply elem_of_cons in H as [H|H];
                                   [discriminate|]); inversion H|]).
    apply NoDup_nil_2.
  - repeat (apply Forall_cons; split; [eexists; reflexivity|]).
    apply Forall_nil_2.
Qed.

Section ClearedRefs.
Context (st : base.State).

Let c1 := fresh_history "cost_history" st.
Let c2 := fresh_history "mean_pbest_history" c1.
Let c3 := fresh_history "mean_neighbor_history" c2.
Let c4 := fresh_history "pos_history" c3.

Lemma cleared_ref_cost :
  history_ref (cleared st) "cost_history" = Some (fresh (dom (base.heap st))).
Proof.
  unfold cleared. do 4 (rewrite fresh_history_ref_other by discriminate).
  apply fresh_history_ref.
Qed.

Lemma cleared_ref_mean_pbest :
  history_ref (cleared st) "mean_pbest_history"
  = Some (fresh (dom (base.heap c1))).
Proof.
  unfold cleared. do 3 (rewrite fresh_history_ref_other by discriminate).
  apply fresh_history_ref.
Qed.

Lemma cleared_ref_mean_neighbor :
  history_ref (cleared st) "mean_neighbor_history"
  = Some (fresh (dom (base.heap c2))).
Proof.
  unfold cleared. do 2 (rewrite fresh_history_ref_other by discriminate).
  apply fresh_history_ref.
Qed.

Lemma cleared_ref_pos :
  history_ref (cleared st) "pos_history" = Some (fresh (dom (base.heap c3))).
Proof.
  unfold cleared. rewrite fresh_history_ref_other by discriminate.
  apply fresh_history_ref.
Qed.

Lemma cleared_ref_velocity :
  history_ref (cleared st) "velocity_history"
  = Some (fresh (dom (base.heap c4))).
Proof. unfold cleared. apply fresh_history_ref. Qed.

Lemma cleared_distinct : distinct_histories (cleared st).
Proof.
  exists [fresh (dom (base.heap st)); fresh (dom (base.heap c1));
          fresh (dom (base.heap c2)); fresh (dom (base.heap c3));
          fresh (dom (base.heap c4))].
  split; [|split].
  - unfold history_names. cbn [mapM].
    rewrite cleared_ref_cost, cleared_ref_mean_pbest,
      cleared_ref_mean_neighbor, cleared_ref_pos, cleared_ref_velocity.
    reflexivity.
  - pose proof (is_fresh (dom (base.heap st))) as F0.
    pose proof (is_fresh (dom (base.heap c1))) as F1.
    pose proof (is_fresh (dom (base.heap c2))) as F2.
    pose proof (is_fresh (dom (base.heap c3))) as F3.
    pose proof (is_fresh (dom (base.heap c4))) as F4.
    pose proof (fresh_history_dom "cost_history" st) as D1.
    pose proof (fresh_history_dom "mean_pbest_history" c1) as D2.
    pose proof (fresh_history_dom "mean_neighbor_history" c2) as D3.
    pose proof (fresh_history_dom "pos_history" c3) as D4.
    fold c1 in D1. fold c2 in D2. fold c3 in D3. fold c4 in D4.
    revert F0 F1 F2 F3 F4 D1 D2 D3 D4.
    generalize (fresh (dom (base.heap c4))) (fresh (dom (base.heap c3)))
      (fresh (dom (base.heap c2))) (fresh (dom (base.heap c1)))
      (fresh (dom (base.heap st))).
    generalize (dom (base.heap c4)) (dom (base.heap c3)) (dom (base.heap c2))
      (dom (base.heap c1)) (dom (base.heap st)).
    intros X4 X3 X2 X1 X0 l5 l4 l3 l2 l1 F0 F1 F2 F3 F4 D1 D2 D3 D4.
    subst X4 X3 X2 X1.
    repeat (apply NoDup_cons; split;
              [rewrite ?elem_of_cons, elem_of_nil|]); [..|apply NoDup_nil_2];
      rewrite ?elem_of_union, ?elem_of_singleton in *;
      intuition congruence.
  - pose proof (fresh_history_dom "cost_history" st) as D1.
    pose proof (fresh_history_dom "mean_pbest_history" c1) as D2.
    pose proof (fresh_history_dom "mean_neighbor_history" c2) as D3.
    pose proof (fresh_history_dom "pos_history" c3) as D4.
    pose proof (fresh_history_dom "velocity_history" c4) as D5.
    fold c1 in D1. fold c2 in D2. fold c3 in D3. fold c4 in D4.
    change (fresh_history "velocity_history" c4) with (cleared st) in D5.
    repeat (apply Forall_cons; split;
              [apply elem_of_dom; rewrite D5, ?D4, ?D3, ?D2, ?D1,
                 ?elem_of_union, ?elem_of_singleton; tauto|]).
    apply Forall_nil_2.
Qed.

End ClearedRefs.

Lemma frame_history_ref (init_swarm : stateful base.State unit)
    (st : base.State) (name : string) :
  init_swarm_frame init_swarm -> name <> "swarm" ->
  history_ref (leaves init_swarm st) name = history_ref st name.
Proof.
  intros Hf Hne. destruct (Hf st) as (Hself & Hcls & _).
  unfold history_ref, resolve. rewrite (Hself name Hne), Hcls. reflexivity.
Qed.

(** An [_init_swarm] that keeps to its frame keeps them so. *)
Lemma frame_distinct (init_swarm : stateful base.State unit) (st : base.State) :
  init_swarm_frame init_swarm ->
  distinct_histories st -> distinct_histories (leaves init_swarm st).
Proof.
  intros Hf. apply distinct_histories_transfer.
  - intros name Hn. apply frame_history_ref; [exact Hf|].
    intros ->. revert Hn. unfold history_names. clear. intros Hn.
    repeat (apply elem_of_cons in Hn as [Hn|Hn]; [discriminate|]).
    inversion Hn.
  - intros l [xs Hxs]. destruct (Hf st) as (_ & _ & Hheap).
    exists xs. apply Hheap, Hxs.
Qed.

(** From [reset] on the histories are five different lists. *)
Lemma reset_distinct (init_swarm : stateful base.State unit) (st : base.State) :
  init_swarm_frame init_swarm ->
  distinct_histories (leaves (base.reset init_swarm) st).
Proof.
  intros Hf. unfold leaves. rewrite reset_run.
  apply (frame_distinct init_swarm (cleared st) Hf), cleared_distinct.
Qed.

(** So they are on every instance the constructor returns. *)
Lemma constructor_distinct (init_swarm : stateful base.State unit)
    (n_particles dimensions options velocity_clamp init_pos ftol : pyval)
    (ftol_iter : pyval) (st : base.State) :
  positive_integer ftol_iter ->
  init_swarm_frame init_swarm ->
  distinct_histories
    (leaves (base.construct init_swarm n_particles dimensions options
               velocity_clamp init_pos ftol ftol_iter) st).
Proof.
  intros Hp Hf. destruct (gt_zero_positive_integer _ Hp) as [Hg Hi].
  unfold leaves, base.construct. fold (bare st).
  rewrite (init_run_accept _ _ _ _ _ _ _ _ _ Hg Hi).
  set (c := cleared _).
  assert (H : distinct_histories (leaves init_swarm c))
    by (apply (frame_distinct init_swarm c Hf), cleared_distinct).
  unfold leaves in H. destruct (init_swarm c) as [[u|e] st']; exact H.
Qed.

(** [_populate_history] keeps them so. *)
Lemma populate_history_distinct (hist : base.ToHistory) (st : base.State) :
  distinct_histories st ->
  distinct_histories (leaves (base._populate_history hist) st).
Proof.
  intros Hd.
  destruct (distinct_histories_inv st Hd)
    as (l1 & l2 & l3 & l4 & l5 & x1 & x2 & x3 & x4 & x5 &
        R1 & R2 & R3 & R4 & R5 & Hnd & X1 & X2 & X3 & X4 & X5).
  unfold leaves.
  rewrite (populate_history_run hist st _ _ _ _ _ _ _ _ _ _
             R1 R2 R3 R4 R5 Hnd X1 X2 X3 X4 X5).
  cbn [snd]. apply (distinct_histories_transfer st); [reflexivity| |exact Hd].
  intros l Hl. unfold appended. cbn [base.heap].
  rewrite !lookup_insert_is_Some'. tauto.
Qed.

(* ===================================================================== *)
(** * The operators on the sample swarm                                  *)
(* ===================================================================== *)

Example compute_pbest_sample :
  returns operators.compute_pbest sample_swarm
  = Ok ([[1; 2]; [30; 40]; [50; 60]]%float, [4; 5; 5]%float).
Proof. vm_compute. reflexivity. Qed.

Example compute_position_sample :
  returns (operators.compute_position None (fun x _ => Ok x)) sample_swarm
  = Ok [[1.5; 2.5]; [4; 3]; [7; 6]]%float.
Proof. vm_compute. reflexivity. Qed.

Example array_split_uneven :
  np.array_split [1; 2; 3; 4; 5; 6; 7] 3 = Ok [[1; 2; 3]; [4; 5]; [6; 7]].
Proof. vm_compute. reflexivity. Qed.

Example array_split_more_sections_than_rows :
  np.array_split [1; 2] 5 = Ok [[1]; [2]; []; []; []].
Proof. vm_compute. reflexivity. Qed.

Example evaluation_in_two_blocks :
  returns (operators.compute_objective_function sphere
             (Some {| _processes := 2 |}) []) sample_swarm
  = Ok (PyArr1 [5; 25; 61]%float).
Proof. vm_compute. reflexivity. Qed.

Example evaluation_on_empty_blocks :
  returns (operators.compute_objective_function needs_rows
             (Some {| _processes := 5 |}) []) sample_swarm
  = Raise (ValueError "empty input").
Proof. vm_compute. reflexivity. Qed.

Example constructor_rejects_float :
  returns (base.construct sample_init_swarm (PyInt 3) (PyInt 2) PyNone PyNone
             PyNone (PyFloat neg_infinity) (PyFloat 2)) base.class_defined
  = Raise (AssertionError ftol_iter_message).
Proof. vm_compute. reflexivity. Qed.

Example constructor_rejects_zero :
  returns (base.construct sample_init_swarm (PyInt 3) (PyInt 2) PyNone PyNone
             PyNone (PyFloat neg_infinity) (PyInt 0)) base.class_defined
  = Raise (AssertionError ftol_iter_message).
Proof. vm_compute. reflexivity. Qed.

(** With the [_init_swarm] of the abstract class [reset] raises, after the
    histories have been replaced. *)
Example reset_of_abstract_class :
  returns (base.reset base._init_swarm) sample_optimizer
    = Raise (NotImplementedError "SwarmBase::init_swarm()") /\
  history (leaves (base.reset base._init_swarm)
             (leaves (base._populate_history sample_record) sample_optimizer))
    "cost_history" = Some [].
Proof. vm_compute. split; reflexivity. Qed.

Example histories_after_two_records :
  let st := leaves (base._populate_history sample_record)
              (leaves (base._populate_history sample_record) sample_optimizer) in
  history st "cost_history" = Some [PyFloat 4; PyFloat 4] /\
  history (leaves (base.reset sample_init_swarm) st) "cost_history" = Some [].
Proof. vm_compute. split; reflexivity. Qed.

(* ===================================================================== *)
(** * The theorems at the sample data                                    *)
(* ===================================================================== *)

(** The first particle improves, the second ties, the third is worse. *)
Lemma compute_pbest_spec_witness :
  pbest_shapes 3 2 sample_swarm /\
  exists new_pbest_pos new_pbest_cost,
    returns operators.compute_pbest sample_swarm
      = Ok (new_pbest_pos, new_pbest_cost) /\
    new_pbest_cost !! 0 = Some 4%float /\
    new_pbest_pos !! 0 = Some [1; 2]%float /\
    new_pbest_cost !! 1 = Some 5%float /\
    new_pbest_pos !! 1 = Some [30; 40]%float.
Proof.
  assert (Hs : pbest_shapes 3 2 sample_swarm)
    by (repeat split; repeat constructor).
  split; [exact Hs|].
  destruct (compute_pbest_spec 3 2 sample_swarm Hs)
    as (pos & cost & Hrun & _ & _ & Hi).
  exists pos, cost. split; [exact Hrun|].
  destruct (Hi 0 4%float 5%float [1; 2]%float [10; 20]%float
              eq_refl eq_refl eq_refl eq_refl) as (Hc0 & Hp0 & _).
  destruct (Hi 1 5%float 5%float [3; 4]%float [30; 40]%float
              eq_refl eq_refl eq_refl eq_refl) as (_ & _ & Htie & _).
  destruct (Htie eq_refl) as [Hc1 Hp1].
  repeat split; assumption.
Defined.

Lemma parallel_evaluation_equivalence_witness :
  0 < _processes {| _processes := 2 |} /\
  rowwise sphere [] sphere_row /\
  returns (operators.compute_objective_function sphere
             (Some {| _processes := 2 |}) []) sample_swarm
  = returns (operators.compute_objective_function sphere None []) sample_swarm.
Proof.
  assert (HP : 0 < _processes {| _processes := 2 |}) by (simpl; lia).
  assert (Hf : rowwise sphere [] sphere_row) by (intros block; reflexivity).
  split; [exact HP|]. split; [exact Hf|].
  apply (parallel_evaluation_equivalence sample_swarm sphere [] sphere_row
           {| _processes := 2 |} HP Hf).
Defined.

Lemma compute_position_spec_witness :
  position_shapes 3 2 sample_swarm /\
  exists tentative,
    returns (operators.compute_position None (fun x _ => Ok x)) sample_swarm
      = Ok tentative /\
    has_shape 3 2 tentative.
Proof.
  assert (Hs : position_shapes 3 2 sample_swarm)
    by (repeat split; repeat constructor).
  split; [exact Hs|].
  destruct (compute_position_spec 3 2 sample_swarm (fun x _ => Ok x) Hs)
    as (t & Hrun & _ & Hshape & _).
  exists t. split; assumption.
Defined.



Lemma sample_init_swarm_frame : init_swarm_frame sample_init_swarm.
Proof.
  intros st. split; [|split].
  - intros name Hne. apply lookup_insert_ne. congruence.
  - reflexivity.
  - intros l xs H. exact H.
Defined.

Lemma constructor_checks_ftol_iter_witness :
  positive_integer (PyInt 1) /\
  ~ positive_integer (PyFloat 2) /\
  (exists self,
     returns (base.construct sample_init_swarm (PyInt 3) (PyInt 2) PyNone
                PyNone PyNone (PyFloat neg_infinity) (PyInt 1)) base.class_defined
     = Ok self /\ self !! "ftol_iter" = Some (PyInt 1)) /\
  (exists e,
     returns (base.construct sample_init_swarm (PyInt 3) (PyInt 2) PyNone
                PyNone PyNone (PyFloat neg_infinity) (PyFloat 2)) base.class_defined
     = Raise e).
Proof.
  assert (Hpos : positive_integer (PyInt 1))
    by (exists 1%Z; split; [reflexivity|lia]).
  assert (Hneg : ~ positive_integer (PyFloat 2))
    by (intros (z & Hz & _); discriminate Hz).
  split; [exact Hpos|]. split; [exact Hneg|]. split.
  - destruct (constructor_checks_ftol_iter sample_init_swarm (PyInt 3)
                (PyInt 2) PyNone PyNone PyNone (PyFloat neg_infinity)
                (PyInt 1) base.class_defined) as [_ Hok].
    destruct (Hok Hpos sample_init_swarm_frame (fun _ => eq_refl))
      as (self & Hrun & Hbound & _).
    exists self. split; assumption.
  - destruct (constructor_checks_ftol_iter sample_init_swarm (PyInt 3)
                (PyInt 2) PyNone PyNone PyNone (PyFloat neg_infinity)
                (PyFloat 2) base.class_defined) as [Herr _].
    destruct (Herr Hneg) as (e & Hrun & _).
    exists e. exact Hrun.
Defined.

Lemma reset_spec_witness :
  init_swarm_frame sample_init_swarm /\
  history (leaves (base.reset sample_init_swarm) sample_optimizer)
    "cost_history" = Some [] /\
  base.self_attrs (leaves (base.reset sample_init_swarm) sample_optimizer)
    !! "ftol_iter"
  = base.self_attrs sample_optimizer !! "ftol_iter".
Proof.
  split; [exact sample_init_swarm_frame|].
  destruct (reset_spec sample_init_swarm sample_optimizer
              sample_init_swarm_frame) as (Hhist & Hparam & _).
  split.
  - apply Hhist. repeat constructor.
  - apply Hparam. repeat constructor.
Defined.

Lemma sample_optimizer_distinct : distinct_histories sample_optimizer.
Proof.
  exists [5; 6; 7; 8; 9]. split; [vm_compute; reflexivity|]. split.
  - repeat (apply NoDup_cons; split;
              [intros H; repeat (apply elem_of_cons in H as [H|H];
                                   [discriminate|]); inversion H|]).
    apply NoDup_nil_2.
  - repeat (apply Forall_cons; split; [eexists; vm_compute; reflexivity|]).
    apply Forall_nil_2.
Defined.

Lemma populate_history_spec_witness :
  distinct_histories sample_optimizer /\
  returns (base._populate_history sample_record) sample_optimizer = Ok tt /\
  exists xs,
    history sample_optimizer "pos_history" = Some xs /\
    history (leaves (base._populate_history sample_record) sample_optimizer)
      "pos_history"
    = Some (xs ++ [PyArr2 2 (position sample_swarm)]).
Proof.
  split; [exact sample_optimizer_distinct|].
  destruct (populate_history_spec sample_record sample_optimizer
              sample_optimizer_distinct) as (Hrun & Hentries & _).
  split; [exact Hrun|].
  destruct (Hentries "pos_history" (PyArr2 2 (position sample_swarm)))
    as (xs & Hbefore & Hafter & _).
  - unfold history_entries. repeat constructor.
  - exists xs. split; assumption.
Defined.

(* ===================================================================== *)
(** * More on the order of binary64                                      *)
(* ===================================================================== *)

Lemma SFcompare_refl (x : spec_float) :
  x <> S754_nan -> SFcompare x x = Some Eq.
Proof.
  destruct x as [s|s| |s m e]; simpl; intros H; try congruence.
  - destruct s; reflexivity.
  - rewrite Z.compare_refl, Pos.compare_cont_refl. destruct s; reflexivity.
Qed.

Lemma SFle_trans (x y z : spec_float) : SFle x y -> SFle y z -> SFle x z.
Proof.
  unfold SFle.
  destruct x as [sx|sx| |sx mx ex], y as [sy|sy| |sy my ey],
           z as [sz|sz| |sz mz ez]; simpl;
    try (intros [Ha|Ha] [Hb|Hb]; discriminate);
    try (destruct sx; try destruct sy; try destruct sz; simpl;
         intros [Ha|Ha] [Hb|Hb]; try discriminate; auto; fail).
  destruct sx, sy, sz; simpl; auto;
    try (intros [Ha|Ha] [Hb|Hb]; discriminate);
    change (Pos.compare_cont Eq) with Pos.compare;
    destruct (Z.compare_spec ex ey), (Z.compare_spec ey ez),
      (Z.compare_spec ex ez), (Pos.compare_spec mx my),
      (Pos.compare_spec my mz), (Pos.compare_spec mx mz);
    simpl; intros [Ha|Ha] [Hb|Hb]; try discriminate; auto; lia.
Qed.

Lemma leb_SFle (x y : float) :
  (x <=? y)%float = true <-> SFle (Prim2SF x) (Prim2SF y).
Proof.
  rewrite FloatAxioms.leb_spec. unfold SFleb, SFle.
  destruct (SFcompare (Prim2SF x) (Prim2SF y)) as [[]|]; split; intros H;
    try reflexivity; try discriminate; auto; destruct H; discriminate.
Qed.

Lemma leb_trans (x y z : float) :
  (x <=? y)%float = true -> (y <=? z)%float = true -> (x <=? z)%float = true.
Proof. rewrite !leb_SFle. apply SFle_trans. Qed.

Lemma is_nan_Prim2SF (x : float) :
  is_nan x = true -> Prim2SF x = S754_nan.
Proof.
  unfold is_nan. rewrite FloatAxioms.eqb_spec. unfold SFeqb. intros H.
  destruct (Prim2SF x) as [s|s| |s m e] eqn:E; [..|reflexivity|];
    rewrite SFcompare_refl in H by discriminate; discriminate.
Qed.

Lemma ltb_nan_l (x y : float) : is_nan x = true -> (x <? y)%float = false.
Proof.
  intros H. rewrite FloatAxioms.ltb_spec, (is_nan_Prim2SF x H). reflexivity.
Qed.

Lemma ltb_nan_r (x y : float) : is_nan y = true -> (x <? y)%float = false.
Proof.
  intros H. rewrite FloatAxioms.ltb_spec, (is_nan_Prim2SF y H).
  unfold SFltb. destruct (Prim2SF x); reflexivity.
Qed.

Lemma ltb_irrefl (x : float) : (x <? x)%float = false.
Proof.
  rewrite FloatAxioms.ltb_spec. unfold SFltb.
  destruct (Prim2SF x) as [s|s| |s m e] eqn:E;
    try (rewrite SFcompare_refl by discriminate); reflexivity.
Qed.

(** The current cost is never strictly below [min(old, current)]. *)
Lemma ltb_py_min (old cur : float) : (cur <? py_min old cur)%float = false.
Proof.
  unfold py_min. destruct (cur <? old)%float eqn:E; [apply ltb_irrefl|exact E].
Qed.

Lemma py_min_again (old cur : float) :
  py_min (py_min old cur) cur = py_min old cur.
Proof. unfold py_min at 1. rewrite ltb_py_min. reflexivity. Qed.

Lemma py_min_not_nan (a b : float) :
  is_nan a = false -> is_nan b = false -> is_nan (py_min a b) = false.
Proof. intros Ha Hb. unfold py_min. destruct (b <? a)%float; assumption. Qed.

(** Folding [min] over a run of costs gives the least of them all. *)
Lemma foldl_py_min_least (costs : list float) (old : float) :
  is_nan old = false -> Forall (fun c => is_nan c = false) costs ->
  let best := foldl py_min old costs in
  is_nan best = false /\
  (best <=? old)%float = true /\
  Forall (fun c => (best <=? c)%float = true) costs /\
  (best = old \/ best ∈ costs).
Proof.
  revert old. induction costs as [|c costs IH]; intros old Hold Hall; cbn.
  - split; [exact Hold|]. split; [|split; [constructor|left; reflexivity]].
    apply leb_SFle. right. apply is_nan_false, Hold.
  - apply Forall_cons in Hall as [Hc Hall].
    destruct (py_min_least old c Hold Hc) as (Hle_old & Hle_c & Hin).
    destruct (IH (py_min old c) (py_min_not_nan _ _ Hold Hc) Hall)
      as (Hnan & Hle & Hrest & Hmem).
    split; [exact Hnan|]. split; [eapply leb_trans; eassumption|].
    split; [constructor; [eapply leb_trans; eassumption|exact Hrest]|].
    destruct Hmem as [->|Hmem]; [|right; right; exact Hmem].
    destruct Hin as [->| ->]; [left; reflexivity|right; left].
Qed.

(* ===================================================================== *)
(** * The personal bests over an iteration and over a run                *)
(* ===================================================================== *)

(** The costs [compute_pbest] returns, in closed form. *)
Lemma pbest_costs_closed (cur pbc : vector) :
  zip_with np.choose (np.invert (zip_with PrimFloat.ltb cur pbc))
    (zip_with pair pbc cur)
  = zip_with py_min pbc cur.
Proof.
  revert pbc. induction cur as [|c cur IH]; intros [|o pbc]; try reflexivity.
  cbn. rewrite <- IH. unfold py_min, np.choose, np.invert. cbn.
  destruct (c <? o)%float; reflexivity.
Qed.

Lemma pbest_rows_closed (D : nat) (mask : list bool) (pbp pos : matrix) :
  Forall (fun row => length row = D) pbp ->
  Forall (fun row => length row = D) pos ->
  zip_with (zip_with np.choose) (np.invert2 (np.repeat_newaxis mask D))
    (zip_with (zip_with pair) pbp pos)
  = zip_with kept_row mask (zip_with pair pbp pos).
Proof.
  intros Hpb. revert mask pos.
  induction Hpb as [|pb pbp Lpb _ IH]; intros [|m mask] pos Hpos;
    try reflexivity.
  destruct Hpos as [|p pos Lp Hpos]; [reflexivity|].
  cbn. rewrite <- IH by exact Hpos. f_equal.
  unfold np.invert.
  change (map negb (replicate D m)) with (negb <$> replicate D m).
  rewrite fmap_replicate, <- Lpb.
  rewrite (choose_replicate (negb m) pb p) by congruence.
  destruct m; reflexivity.
Qed.

Lemma compute_pbest_closed (N D : nat) (s : Swarm) :
  pbest_shapes N D s ->
  operators.compute_pbest s =
  (Ok (zip_with kept_row
         (zip_with PrimFloat.ltb (current_cost s) (pbest_cost s))
         (zip_with pair (pbest_pos s) (position s)),
       zip_with py_min (pbest_cost s) (current_cost s)), s).
Proof.
  intros Hs. rewrite (compute_pbest_run N D s Hs).
  destruct Hs as (_ & _ & _ & [_ Fpos] & [_ Fpb]).
  rewrite pbest_costs_closed, (pbest_rows_closed D) by assumption.
  reflexivity.
Qed.

Lemma update_pbest_run (N D : nat) (s : Swarm) :
  pbest_shapes N D s ->
  update_pbest s =
  (Ok tt,
   set_pbest
     (zip_with kept_row
        (zip_with PrimFloat.ltb (current_cost s) (pbest_cost s))
        (zip_with pair (pbest_pos s) (position s)))
     (zip_with py_min (pbest_cost s) (current_cost s)) s).
Proof.
  intros Hs. unfold update_pbest, mbind, stateful_bind.
  rewrite (compute_pbest_closed N D s Hs). reflexivity.
Qed.

Lemma update_pbest_shapes (N D : nat) (s : Swarm) :
  pbest_shapes N D s -> pbest_shapes N D (leaves update_pbest s).
Proof.
  intros Hs. unfold leaves. rewrite (update_pbest_run N D s Hs). cbn [snd].
  destruct Hs as (Hd & Hc & Hp & [Lpos Fpos] & [Lpb Fpb]).
  unfold pbest_shapes, set_pbest. cbn.
  split; [exact Hd|]. split; [exact Hc|].
  split; [rewrite length_zip_with; lia|]. split; [split; assumption|].
  split; [rewrite !length_zip_with; lia|].
  apply Forall_lookup. intros i row Hrow.
  apply lookup_zip_with_Some in Hrow as (m & [pb p] & -> & _ & Hr).
  apply lookup_zip_with_Some in Hr as (pb' & p' & [= -> ->] & Hpb & Hpos).
  rewrite Forall_lookup in Fpos, Fpb.
  destruct m; cbn; eauto.
Qed.

(** X1. After the personal bests are updated from a swarm of consistent
    shapes, no particle has a current cost strictly below its personal-best
    cost (also when costs are NaN); the shapes are as before, and position,
    velocity and current cost are untouched. *)
Theorem update_pbest_invariant (N D : nat) (s : Swarm) :
  pbest_shapes N D s ->
  let s' := leaves update_pbest s in
  returns update_pbest s = Ok tt /\
  pbest_shapes N D s' /\
  position s' = position s /\ velocity s' = velocity s /\
  current_cost s' = current_cost s /\
  forall i cur best,
    current_cost s' !! i = Some cur -> pbest_cost s' !! i = Some best ->
    (cur <? best)%float = false.
Proof.
  intros Hs s'. pose proof (update_pbest_shapes N D s Hs) as Hs'.
  subst s'. unfold returns, leaves in *.
  rewrite (update_pbest_run N D s Hs) in *. cbn [fst snd] in *.
  split; [reflexivity|]. split; [exact Hs'|].
  split; [reflexivity|]. split; [reflexivity|]. split; [reflexivity|].
  intros i cur best Hcur Hbest. cbn in Hcur, Hbest.
  apply lookup_zip_with_Some in Hbest as (old & cur' & -> & Hold & Hcur').
  rewrite Hcur in Hcur'. injection Hcur' as <-. apply ltb_py_min.
Qed.

Lemma kept_rows_unimproved (mask : list bool) (rows pos : matrix) :
  Forall (fun m => m = false) mask ->
  length mask = length rows -> length rows = length pos ->
  zip_with kept_row mask (zip_with pair rows pos) = rows.
Proof.
  intros Hm. revert rows pos.
  induction Hm as [|m mask -> _ IH]; intros [|r rows] [|p pos] L1 L2;
    try discriminate; [reflexivity|].
  cbn. f_equal. apply IH; simpl in *; lia.
Qed.

(** X2. Updating the personal bests is idempotent: on the updated swarm
    [compute_pbest] returns the personal bests the swarm already holds, and
    a second update changes nothing. *)
Theorem update_pbest_idempotent (N D : nat) (s : Swarm) :
  pbest_shapes N D s ->
  let s' := leaves update_pbest s in
  returns operators.compute_pbest s' = Ok (pbest_pos s', pbest_cost s') /\
  leaves update_pbest s' = s'.
Proof.
  intros Hs s'. pose proof (update_pbest_shapes N D s Hs) as Hs'.
  fold s' in Hs'.
  assert (Hcost : zip_with py_min (pbest_cost s') (current_cost s')
                  = pbest_cost s').
  { subst s'. unfold leaves. rewrite (update_pbest_run N D s Hs). cbn.
    generalize (pbest_cost s) (current_cost s). clear.
    induction l as [|o l IH]; intros [|c l']; try reflexivity.
    cbn. rewrite py_min_again, IH. reflexivity. }
  assert (Hrows : zip_with kept_row
                    (zip_with PrimFloat.ltb (current_cost s') (pbest_cost s'))
                    (zip_with pair (pbest_pos s') (position s'))
                  = pbest_pos s').
  { destruct Hs' as (_ & Hc & Hp & [Lpos _] & [Lpb _]).
    apply kept_rows_unimproved; [|rewrite length_zip_with; lia|lia].
    apply Forall_lookup. intros i m Hm.
    apply lookup_zip_with_Some in Hm as (cur & best & -> & Hcur & Hbest).
    rewrite <- Hcost in Hbest.
    apply lookup_zip_with_Some in Hbest as (old & cur' & -> & _ & Hcur').
    rewrite Hcur in Hcur'. injection Hcur' as <-. apply ltb_py_min. }
  split.
  - unfold returns. rewrite (compute_pbest_closed N D s' Hs').
    cbn [fst]. rewrite Hcost, Hrows. reflexivity.
  - unfold leaves. rewrite (update_pbest_run N D s' Hs'). cbn [snd].
    rewrite Hcost, Hrows. destruct s'; reflexivity.
Qed.

(** X3. A cost that is NaN never wins: a particle whose current cost is NaN
    keeps its personal best, and a particle whose personal-best cost is NaN
    keeps it whatever its current cost is. *)
Theorem compute_pbest_nan (N D : nat) (s : Swarm) :
  pbest_shapes N D s ->
  exists new_pbest_pos new_pbest_cost,
    returns operators.compute_pbest s = Ok (new_pbest_pos, new_pbest_cost) /\
    forall i cur old pb,
      current_cost s !! i = Some cur -> pbest_cost s !! i = Some old ->
      pbest_pos s !! i = Some pb ->
      is_nan cur = true \/ is_nan old = true ->
      new_pbest_cost !! i = Some old /\ new_pbest_pos !! i = Some pb.
Proof.
  intros Hs. unfold returns. rewrite (compute_pbest_closed N D s Hs).
  eexists _, _. split; [reflexivity|].
  intros i cur old pb Hcur Hold Hpb Hnan.
  assert (Hlt : (cur <? old)%float = false)
    by (destruct Hnan; [apply ltb_nan_l|apply ltb_nan_r]; assumption).
  destruct Hs as (_ & Hc & _ & [Lpos _] & [Lpb _]).
  assert (Hp : is_Some (position s !! i)).
  { apply lookup_lt_is_Some. apply lookup_lt_Some in Hcur. lia. }
  destruct Hp as [p Hp]. split.
  - rewrite lookup_zip_with, Hold, Hcur. cbn. unfold py_min.
    rewrite Hlt. reflexivity.
  - rewrite !lookup_zip_with, Hcur, Hold, Hpb, Hp. cbn.
    rewrite Hlt. reflexivity.
Qed.

Lemma update_pbest_lookup (N D : nat) (s : Swarm) (i : nat) (cur old : float) :
  pbest_shapes N D s ->
  current_cost s !! i = Some cur -> pbest_cost s !! i = Some old ->
  pbest_cost (leaves update_pbest s) !! i = Some (py_min old cur) /\
  pbest_pos (leaves update_pbest s) !! i
  = if (cur <? old)%float then position s !! i else pbest_pos s !! i.
Proof.
  intros Hs Hcur Hold. unfold leaves. rewrite (update_pbest_run N D s Hs).
  cbn [snd set_pbest pbest_cost pbest_pos].
  destruct Hs as (_ & Hc & _ & [Lpos _] & [Lpb _]).
  pose proof (lookup_lt_Some _ _ _ Hcur) as Hi.
  destruct (lookup_lt_is_Some_2 (position s) i ltac:(lia)) as [p Hp].
  destruct (lookup_lt_is_Some_2 (pbest_pos s) i ltac:(lia)) as [pb Hpb].
  split.
  - rewrite lookup_zip_with, Hold, Hcur. reflexivity.
  - rewrite !lookup_zip_with, Hcur, Hold, Hpb, Hp. cbn.
    destruct (cur <? old)%float; reflexivity.
Qed.

Lemma set_observation_shapes (N D : nat) (s : Swarm) (pos : matrix)
    (cost : vector) :
  pbest_shapes N D s -> has_shape N D pos -> length cost = N ->
  pbest_shapes N D (set_observation pos cost s).
Proof.
  intros (Hd & _ & Hp & _ & Hpb) Hpos Hcost.
  unfold pbest_shapes, set_observation. cbn. auto.
Qed.

Lemma track_cons (N D : nat) (s : Swarm) (pos : matrix) (cost : vector)
    (rest : list (matrix * vector)) :
  pbest_shapes N D (set_observation pos cost s) ->
  track ((pos, cost) :: rest) s
  = track rest (leaves update_pbest (set_observation pos cost s)).
Proof.
  intros Hs. cbn [track]. unfold mbind, stateful_bind, modify, leaves.
  rewrite (update_pbest_run N D _ Hs). reflexivity.
Qed.

(** X4. Over a run of iterations (each with positions and costs of the
    swarm's shape) the personal-best cost of a particle is [min] folded over
    its costs, starting from the personal best it had; it comes with the
    position it was attained at: cost and position are those the particle
    had before the run, or those of one and the same iteration. When no cost
    is NaN, it is at most the cost of every iteration and the earlier
    personal best, and it is one of them. *)
Theorem track_minimum (N D : nat) (observations : list (matrix * vector))
    (s : Swarm) :
  pbest_shapes N D s ->
  Forall (fun o => has_shape N D o.1 /\ length o.2 = N) observations ->
  let s' := leaves (track observations) s in
  returns (track observations) s = Ok tt /\
  pbest_shapes N D s' /\
  forall i old, pbest_cost s !! i = Some old ->
    exists costs,
      Forall2 (fun o c => o.2 !! i = Some c) observations costs /\
      pbest_cost s' !! i = Some (foldl py_min old costs) /\
      ((pbest_cost s' !! i = Some old /\
        pbest_pos s' !! i = pbest_pos s !! i) \/
       (exists pos cost, (pos, cost) ∈ observations /\
          pbest_cost s' !! i = cost !! i /\
          pbest_pos s' !! i = pos !! i)) /\
      (is_nan old = false -> Forall (fun c => is_nan c = false) costs ->
       (foldl py_min old costs <=? old)%float = true /\
       Forall (fun c => (foldl py_min old costs <=? c)%float = true) costs /\
       (foldl py_min old costs = old \/ foldl py_min old costs ∈ costs)).
Proof.
  intros Hs Hobs. revert s Hs.
  induction Hobs as [|[pos cost] rest [Hpos Hcost] _ IH]; intros s Hs.
  - cbn. split; [reflexivity|]. split; [exact Hs|].
    intros i old Hold. exists []. split; [constructor|].
    split; [exact Hold|]. split; [left; auto|].
    intros Hn _. split; [|split; [constructor|left; reflexivity]].
    apply leb_SFle. right. apply is_nan_false, Hn.
  - cbn [fst snd] in Hpos, Hcost.
    pose proof (set_observation_shapes N D s pos cost Hs Hpos Hcost) as Hs1.
    set (s1 := set_observation pos cost s) in *.
    pose proof (update_pbest_shapes N D s1 Hs1) as Hs2.
    unfold returns, leaves in *. rewrite (track_cons N D s pos cost rest Hs1).
    fold s1. fold (leaves update_pbest s1) in *.
    set (s2 := leaves update_pbest s1) in *.
    destruct (IH s2 Hs2) as (Hret & Hshape & Hrest).
    split; [exact Hret|]. split; [exact Hshape|].
    intros i old Hold.
    pose proof (lookup_lt_Some _ _ _ Hold) as Hi.
    destruct Hs as (_ & _ & Hp & _ & _).
    destruct (lookup_lt_is_Some_2 cost i ltac:(lia)) as [c Hc].
    destruct (update_pbest_lookup N D s1 i c old Hs1 Hc Hold)
      as [Hcost2 Hpos2].
    fold s2 in Hcost2, Hpos2. cbn in Hpos2.
    destruct (Hrest i (py_min old c) Hcost2)
      as (costs & Hall & Hfold & Hpair & Hleast).
    exists (c :: costs). split; [constructor; [exact Hc|exact Hall]|].
    split; [exact Hfold|]. split.
    + destruct Hpair as [[Hk Hkp]|(pos' & cost' & Hin & Hk & Hkp)].
      * unfold py_min in Hk. rewrite Hk, Hkp, Hpos2.
        destruct (c <? old)%float.
        -- right. exists pos, cost. split; [left|]. split; [symmetry; exact Hc|].
           reflexivity.
        -- left. split; reflexivity.
      * right. exists pos', cost'. split; [right; exact Hin|]. auto.
    + intros Hn Hnc. cbn [foldl].
      apply Forall_cons in Hnc as [Hnc0 Hnc].
      apply (foldl_py_min_least (c :: costs) old Hn).
      constructor; assumption.
Qed.

(* ===================================================================== *)
(** * Arrays that cannot be broadcast                                    *)
(* ===================================================================== *)

Lemma elementwise_mismatch {A B C} (f : A -> B -> C) (a : list A) (b : list B) :
  length a <> length b -> length a <> 1 -> length b <> 1 ->
  np.elementwise f a b = Raise np.shape_error.
Proof.
  intros Hne Ha Hb. unfold np.elementwise.
  destruct (Nat.eqb_spec (length a) (length b)) as [E|_]; [contradiction|].
  destruct a as [|x [|x' a]], b as [|y [|y' b]]; simpl in *;
    try reflexivity; congruence.
Qed.

(** X5. When the cost vectors of a swarm differ in length (and neither has
    length one), [compute_pbest] raises [ValueError]; when position and
    velocity differ in their number of rows (and neither has one row),
    [compute_position] raises [ValueError] whatever the bounds and the
    handler are. In both cases the swarm is left as it was. *)
Theorem operators_shape_error (s : Swarm) :
  (length (current_cost s) <> length (pbest_cost s) ->
   length (current_cost s) <> 1 -> length (pbest_cost s) <> 1 ->
   returns operators.compute_pbest s = Raise np.shape_error /\
   leaves operators.compute_pbest s = s) /\
  (length (position s) <> length (velocity s) ->
   length (position s) <> 1 -> length (velocity s) <> 1 ->
   forall bounds bh,
     returns (operators.compute_position bounds bh) s = Raise np.shape_error /\
     leaves (operators.compute_position bounds bh) s = s).
Proof.
  split.
  - intros Hne H1 H2.
    unfold returns, leaves, operators.compute_pbest, mbind, stateful_bind,
      get, lift. cbn beta iota. unfold np.less.
    rewrite elementwise_mismatch by assumption. split; reflexivity.
  - intros Hne H1 H2 bounds bh.
    unfold returns, leaves, operators.compute_position, mbind, stateful_bind,
      get, lift. cbn beta iota. unfold np.add, np.elementwise2, np.copy.
    rewrite elementwise_mismatch by assumption. split; reflexivity.
Qed.

(* ===================================================================== *)
(** * The blocks of the parallel evaluation                              *)
(* ===================================================================== *)




(* ===================================================================== *)
(** * What the parallel evaluation accepts and returns                   *)
(* ===================================================================== *)

Lemma concatenate_zero_dimensional (v : pyval) (arrays : list pyval) :
  zero_dimensional v ->
  np.concatenate (v :: arrays)
  = Raise (ValueError "zero-dimensional arrays cannot be concatenated").
Proof. destruct v; simpl; intros H; try reflexivity; destruct H. Qed.

(** X7. Through a pool an objective must return arrays: when it returns a
    number, a string or [None] on the blocks, the evaluation through a pool
    of [P >= 1] workers raises [ValueError], where the sequential
    evaluation returns that object. *)
Theorem parallel_refuses_scalars (s : Swarm) (f : Objective) (kw : kwargs)
    (pool : Pool) :
  0 < _processes pool ->
  (forall block, exists v, f block kw = Ok v /\ zero_dimensional v) ->
  returns (operators.compute_objective_function f (Some pool) kw) s
  = Raise (ValueError "zero-dimensional arrays cannot be concatenated") /\
  exists v, zero_dimensional v /\
    returns (operators.compute_objective_function f None kw) s = Ok v.
Proof.
  intros HP Hf. split.
  - rewrite objective_parallel_run.
    destruct (array_split_blocks (position s) _ HP)
      as (blocks & -> & Hlen & _ & _).
    cbn [mbind result_bind].
    destruct blocks as [|b blocks]; [simpl in Hlen; lia|].
    cbn [mapR].
    destruct (Hf b) as (v & Hb & Hv).
    rewrite (worker_ok (partial f kw) b v Hb). cbn [mbind result_bind].
    assert (Hrest : exists vs, mapR (worker (partial f kw)) blocks = Ok vs).
    { clear Hlen. induction blocks as [|b' blocks IH]; [eexists; reflexivity|].
      cbn [mapR].
      destruct (Hf b') as (v' & Hb' & _).
      rewrite (worker_ok (partial f kw) b' v' Hb').
      destruct IH as [vs ->]. eexists. reflexivity. }
    destruct Hrest as [vs ->]. cbn [mbind result_bind].
    apply concatenate_zero_dimensional, Hv.
  - destruct (Hf (position s)) as (v & Hv & Hz).
    exists v. split; [exact Hz|]. rewrite objective_sequential_run. exact Hv.
Qed.


Lemma mapM_as_arr2 (k : nat) (ms : list matrix) :
  mapM (np.as_arr2 k) (map (PyArr2 k) ms) = Some ms.
Proof.
  induction ms as [|m ms IH]; [reflexivity|].
  cbn. rewrite Nat.eqb_refl. cbn. rewrite IH. reflexivity.
Qed.

(** X9. The equivalence of the two modes holds for matrix-valued objectives
    as well: when the objective returns [k] values for every row, the
    evaluation through a pool of [P >= 1] workers returns the same matrix as
    the sequential one, the rows in the order of the particles. *)
Theorem parallel_evaluation_of_matrices (s : Swarm) (f : Objective)
    (kw : kwargs) (k : nat) (values : list float -> list float) (pool : Pool) :
  0 < _processes pool ->
  rowwise2 f kw k values ->
  returns (operators.compute_objective_function f (Some pool) kw) s
    = returns (operators.compute_objective_function f None kw) s /\
  returns (operators.compute_objective_function f (Some pool) kw) s
    = Ok (PyArr2 k (map values (position s))).
Proof.
  intros HP [_ Hf].
  destruct (array_split_blocks (position s) _ HP)
    as (blocks & Hsplit & Hlen & Hcat & _).
  assert (Hpar : returns (operators.compute_objective_function f (Some pool) kw) s
                 = Ok (PyArr2 k (map values (position s)))).
  { rewrite objective_parallel_run, Hsplit. cbn [mbind result_bind].
    rewrite (mapR_ok _ (fun b => PyArr2 k (map values b)))
      by (intros b _; apply worker_ok, Hf).
    cbn [mbind result_bind].
    rewrite <- (map_map (map values) (PyArr2 k)).
    destruct blocks as [|b blocks]; [simpl in Hlen; lia|].
    unfold np.concatenate. cbn [map].
    change (PyArr2 k (map values b) :: map (PyArr2 k) (map (map values) blocks))
      with (map (PyArr2 k) (map (map values) (b :: blocks))).
    rewrite mapM_as_arr2, <- Hcat, concat_map. reflexivity. }
  split; [|exact Hpar].
  rewrite Hpar, objective_sequential_run. symmetry. apply Hf.
Qed.

(* ===================================================================== *)
(** * The optimizer over its life                                        *)
(* ===================================================================== *)

Lemma history_names_not_swarm (name : string) :
  name ∈ history_names -> name <> "swarm".
Proof.
  unfold history_names. intros Hn ->.
  repeat (apply elem_of_cons in Hn as [Hn|Hn]; [discriminate|]).
  inversion Hn.
Qed.

Lemma history_fields_names (name : string) (field : base.ToHistory -> pyval) :
  (name, field) ∈ history_fields -> name ∈ history_names.
Proof.
  unfold history_fields, history_names. intros H.
  repeat (apply elem_of_cons in H as [[= -> ->]|H]); [..|inversion H];
    repeat constructor.
Qed.

Lemma history_names_fields (name : string) :
  name ∈ history_names -> exists field, (name, field) ∈ history_fields.
Proof.
  unfold history_fields, history_names. intros H.
  repeat (apply elem_of_cons in H as [->|H]); [..|inversion H];
    eexists; repeat constructor.
Qed.

Lemma history_at (st : base.State) (name : string) (l : nat) :
  history_ref st name = Some l -> history st name = base.heap st !! l.
Proof. intros H. unfold history. rewrite H. reflexivity. Qed.

(** What one call of [_populate_history] does to the state. *)
Lemma populate_history_facts (hist : base.ToHistory) (st : base.State) :
  distinct_histories st ->
  let st' := leaves (base._populate_history hist) st in
  returns (base._populate_history hist) st = Ok tt /\
  base.self_attrs st' = base.self_attrs st /\
  base.class_attrs st' = base.class_attrs st /\
  (forall name field xs, (name, field) ∈ history_fields ->
     history st name = Some xs ->
     history st' name = Some (xs ++ [field hist])) /\
  (forall l, (forall name, name ∈ history_names -> history_ref st name <> Some l) ->
     base.heap st' !! l = base.heap st !! l).
Proof.
  intros Hd st'.
  destruct (distinct_histories_inv st Hd)
    as (l1 & l2 & l3 & l4 & l5 & x1 & x2 & x3 & x4 & x5 &
        R1 & R2 & R3 & R4 & R5 & Hnd & X1 & X2 & X3 & X4 & X5).
  assert (Hne : l1 <> l2 /\ l1 <> l3 /\ l1 <> l4 /\ l1 <> l5 /\ l2 <> l3 /\
                l2 <> l4 /\ l2 <> l5 /\ l3 <> l4 /\ l3 <> l5 /\ l4 <> l5).
  { pose proof Hnd as Hnd'. repeat (apply NoDup_cons in Hnd' as [? Hnd']).
    rewrite ?elem_of_cons, ?elem_of_nil in *. intuition congruence. }
  destruct Hne as (N12 & N13 & N14 & N15 & N23 & N24 & N25 & N34 & N35 & N45).
  pose proof (populate_history_run hist st _ _ _ _ _ _ _ _ _ _
                R1 R2 R3 R4 R5 Hnd X1 X2 X3 X4 X5) as Hrun.
  subst st'. unfold returns, leaves. rewrite Hrun. cbn [fst snd].
  split; [reflexivity|]. split; [reflexivity|]. split; [reflexivity|].
  split.
  - intros name field xs Hin Hxs. unfold history_fields in Hin.
    repeat (apply elem_of_cons in Hin as [[= -> ->]|Hin]); [..|inversion Hin].
    + rewrite (history_at _ _ l1 R1) in Hxs.
      erewrite (history_at _ _ l1) by exact R1.
      rewrite !appended_other by congruence.
      replace xs with x1 by congruence. apply appended_same.
    + rewrite (history_at _ _ l2 R2) in Hxs.
      erewrite (history_at _ _ l2) by exact R2.
      rewrite !appended_other by congruence.
      replace xs with x2 by congruence. apply appended_same.
    + rewrite (history_at _ _ l3 R3) in Hxs.
      erewrite (history_at _ _ l3) by exact R3.
      rewrite !appended_other by congruence.
      replace xs with x3 by congruence. apply appended_same.
    + rewrite (history_at _ _ l4 R4) in Hxs.
      erewrite (history_at _ _ l4) by exact R4.
      rewrite !appended_other by congruence.
      replace xs with x4 by congruence. apply appended_same.
    + rewrite (history_at _ _ l5 R5) in Hxs.
      erewrite (history_at _ _ l5) by exact R5.
      replace xs with x5 by congruence. apply appended_same.
  - intros l Hl.
    assert (l <> l1 /\ l <> l2 /\ l <> l3 /\ l <> l4 /\ l <> l5) as (?&?&?&?&?).
    { unfold history_names in Hl.
      repeat split; intros E; rewrite E in Hl;
        [ apply (Hl "cost_history") | apply (Hl "mean_pbest_history")
        | apply (Hl "mean_neighbor_history") | apply (Hl "pos_history")
        | apply (Hl "velocity_history") ];
        solve [ assumption | repeat constructor ]. }
    rewrite !appended_other by congruence. reflexivity.
Qed.

Lemma populate_history_ref (hist : base.ToHistory) (st : base.State)
    (name : string) :
  distinct_histories st ->
  history_ref (leaves (base._populate_history hist) st) name
  = history_ref st name.
Proof.
  intros Hd. destruct (populate_history_facts hist st Hd)
    as (_ & Hself & Hcls & _).
  unfold history_ref, resolve. rewrite Hself, Hcls. reflexivity.
Qed.

(** What a run of [_populate_history] does to the state. *)
Lemma populate_all_facts (records : list base.ToHistory) (st : base.State) :
  distinct_histories st ->
  let st' := leaves (populate_all records) st in
  returns (populate_all records) st = Ok tt /\
  distinct_histories st' /\
  base.self_attrs st' = base.self_attrs st /\
  base.class_attrs st' = base.class_attrs st /\
  (forall name field xs, (name, field) ∈ history_fields ->
     history st name = Some xs ->
     history st' name = Some (xs ++ map field records)) /\
  (forall l, (forall name, name ∈ history_names -> history_ref st name <> Some l) ->
     base.heap st' !! l = base.heap st !! l).
Proof.
  revert st. induction records as [|hist records IH]; intros st Hd; cbn zeta.
  - cbn. split; [reflexivity|]. split; [exact Hd|].
    split; [reflexivity|]. split; [reflexivity|].
    split; [|reflexivity]. intros name field xs _ H.
    rewrite app_nil_r. exact H.
  - destruct (populate_history_facts hist st Hd)
      as (Hret & Hself & Hcls & Hhist & Hheap).
    pose proof (populate_history_distinct hist st Hd) as Hd1.
    set (st1 := leaves (base._populate_history hist) st) in *.
    assert (Hrun : populate_all (hist :: records) st = populate_all records st1).
    { cbn [populate_all]. unfold mbind, stateful_bind.
      unfold returns in Hret. subst st1. unfold leaves.
      destruct (base._populate_history hist st) as [r st2].
      cbn in Hret. subst r. reflexivity. }
    unfold returns, leaves. rewrite Hrun.
    destruct (IH st1 Hd1) as (Hret' & Hd' & Hself' & Hcls' & Hhist' & Hheap').
    unfold returns, leaves in Hret', Hd', Hself', Hcls', Hhist', Hheap'.
    split; [exact Hret'|]. split; [exact Hd'|].
    split; [rewrite Hself'; exact Hself|].
    split; [rewrite Hcls'; exact Hcls|].
    split.
    + intros name field xs Hin Hxs.
      rewrite (Hhist' name field (xs ++ [field hist]) Hin
                 (Hhist name field xs Hin Hxs)).
      cbn [map]. rewrite <- app_assoc. reflexivity.
    + intros l Hl. rewrite Hheap'; [apply Hheap, Hl|].
      intros name Hn. subst st1. rewrite populate_history_ref by exact Hd.
      apply Hl, Hn.
Qed.

Lemma reset_histories (init_swarm : stateful base.State unit) (st : base.State)
    (name : string) :
  init_swarm_frame init_swarm -> name ∈ history_names ->
  history (leaves (base.reset init_swarm) st) name = Some [].
Proof.
  intros Hf Hn. unfold leaves. rewrite reset_run.
  apply frame_history;
    [exact Hf|apply history_names_not_swarm, Hn|apply cleared_history, Hn].
Qed.

(** X10. After [reset] and one record per iteration, every history is the
    list of its field of the records, in the order of the iterations: the
    five histories have as many entries as there were iterations. *)
Theorem histories_after_run (init_swarm : stateful base.State unit)
    (records : list base.ToHistory) (st : base.State) :
  init_swarm_frame init_swarm ->
  let st1 := leaves (base.reset init_swarm) st in
  let st' := leaves (populate_all records) st1 in
  returns (populate_all records) st1 = Ok tt /\
  forall name field, (name, field) ∈ history_fields ->
    history st' name = Some (map field records) /\
    (length <$> history st' name) = Some (length records).
Proof.
  intros Hf st1 st'.
  destruct (populate_all_facts records st1 (reset_distinct init_swarm st Hf))
    as (Hret & _ & _ & _ & Hhist & _).
  split; [exact Hret|]. intros name field Hin.
  assert (H : history st' name = Some (map field records)).
  { apply (Hhist name field [] Hin).
    apply reset_histories; [exact Hf|eapply history_fields_names, Hin]. }
  split; [exact H|]. rewrite H. cbn. rewrite length_map. reflexivity.
Qed.

Lemma fresh_history_dom_mono (name : string) (st : base.State) :
  dom (base.heap st) ⊆ dom (base.heap (fresh_history name st)).
Proof. rewrite fresh_history_dom. apply union_subseteq_r. Qed.

Lemma fresh_not_older (st st' : base.State) :
  dom (base.heap st) ⊆ dom (base.heap st') ->
  fresh (dom (base.heap st')) ∉ dom (base.heap st).
Proof.
  intros Hsub Hin. apply (is_fresh (dom (base.heap st'))).
  rewrite elem_of_subseteq in Hsub. apply Hsub, Hin.
Qed.

Lemma cleared_refs_fresh (st : base.State) (name : string) (l : nat) :
  name ∈ history_names -> history_ref (cleared st) name = Some l ->
  l ∉ dom (base.heap st).
Proof.
  set (c1 := fresh_history "cost_history" st).
  set (c2 := fresh_history "mean_pbest_history" c1).
  set (c3 := fresh_history "mean_neighbor_history" c2).
  set (c4 := fresh_history "pos_history" c3).
  assert (S1 : dom (base.heap st) ⊆ dom (base.heap c1))
    by apply fresh_history_dom_mono.
  assert (S2 : dom (base.heap st) ⊆ dom (base.heap c2))
    by (etransitivity; [exact S1|apply fresh_history_dom_mono]).
  assert (S3 : dom (base.heap st) ⊆ dom (base.heap c3))
    by (etransitivity; [exact S2|apply fresh_history_dom_mono]).
  assert (S4 : dom (base.heap st) ⊆ dom (base.heap c4))
    by (etransitivity; [exact S3|apply fresh_history_dom_mono]).
  unfold history_names. intros Hn Hr.
  repeat (apply elem_of_cons in Hn as [->|Hn]); [..|inversion Hn].
  - rewrite cleared_ref_cost in Hr. injection Hr as <-.
    apply (fresh_not_older st st). reflexivity.
  - rewrite cleared_ref_mean_pbest in Hr. injection Hr as <-.
    exact (fresh_not_older st c1 S1).
  - rewrite cleared_ref_mean_neighbor in Hr. injection Hr as <-.
    exact (fresh_not_older st c2 S2).
  - rewrite cleared_ref_pos in Hr. injection Hr as <-.
    exact (fresh_not_older st c3 S3).
  - rewrite cleared_ref_velocity in Hr. injection Hr as <-.
    exact (fresh_not_older st c4 S4).
Qed.

(** X11. [reset] replaces the histories instead of emptying them: a list
    that existed before the reset (a history obtained from the optimizer
    earlier, a list of the class) keeps its entries, and no record of a
    later iteration is appended to it. *)
Theorem earlier_lists_untouched (init_swarm : stateful base.State unit)
    (records : list base.ToHistory) (st : base.State) :
  init_swarm_frame init_swarm ->
  forall l xs, base.heap st !! l = Some xs ->
    base.heap (leaves (populate_all records)
                 (leaves (base.reset init_swarm) st)) !! l = Some xs.
Proof.
  intros Hf l xs Hl.
  set (st1 := leaves (base.reset init_swarm) st).
  destruct (populate_all_facts records st1 (reset_distinct init_swarm st Hf))
    as (_ & _ & _ & _ & _ & Hheap).
  rewrite Hheap.
  - subst st1. unfold leaves. rewrite reset_run.
    destruct (Hf (cleared st)) as (_ & _ & Hkeep).
    apply Hkeep, cleared_heap, Hl.
  - intros name Hn Hr. subst st1. unfold leaves in Hr. rewrite reset_run in Hr.
    fold (leaves init_swarm (cleared st)) in Hr.
    rewrite frame_history_ref in Hr
      by (try exact Hf; apply history_names_not_swarm, Hn).
    apply (cleared_refs_fresh st name l Hn Hr), elem_of_dom. eauto.
Qed.

(* ===================================================================== *)
(** * The constructor once more                                          *)
(* ===================================================================== *)

Section Constructed.
Context (init_swarm : stateful base.State unit).
Context (n_particles dimensions options velocity_clamp init_pos ftol : pyval).
Context (ftol_iter : pyval) (st : base.State).

Let new :=
  base.construct init_swarm n_particles dimensions options velocity_clamp
    init_pos ftol ftol_iter.
Let ready :=
  cleared (leaves (base.setattr "ftol_iter" ftol_iter)
             (configured n_particles dimensions options velocity_clamp
                init_pos ftol (bare st))).

(** When the constructor returns, the check has passed and [_init_swarm]
    has returned on the state [reset] prepared. *)
Lemma construct_returned (self : gmap string pyval) :
  returns new st = Ok self ->
  base.gt_zero ftol_iter = Ok true /\
  base.isinstance_int ftol_iter = true /\
  leaves new st = leaves init_swarm ready /\
  self = base.self_attrs (leaves init_swarm ready).
Proof.
  subst new ready. unfold returns, leaves, base.construct. fold (bare st).
  destruct (base.gt_zero ftol_iter) as [b|e] eqn:Hg.
  - destruct (b && base.isinstance_int ftol_iter) eqn:Hb.
    + apply andb_true_iff in Hb as [-> Hi].
      rewrite (init_run_accept _ _ _ _ _ _ _ _ _ Hg Hi).
      destruct (init_swarm _) as [[u|e] st2]; cbn; [|discriminate].
      intros [= <-]. auto.
    + rewrite (init_run_assert _ _ _ _ _ _ _ _ _ b Hg Hb). discriminate.
  - rewrite (init_run_raise _ _ _ _ _ _ _ _ _ _ Hg). discriminate.
Qed.

Lemma ready_configured :
  configured_with n_particles dimensions options velocity_clamp init_pos ftol
    ftol_iter (base.self_attrs ready).
Proof.
  subst ready. unfold configured_with.
  repeat split.
  all: rewrite cleared_self
         by (unfold history_names; intros Hh;
             repeat (apply elem_of_cons in Hh as [Hh|Hh]; [discriminate|]);
             inversion Hh).
  all: cbn.
  all: repeat (rewrite lookup_insert_ne by discriminate).
  all: apply lookup_insert_eq.
Qed.

End Constructed.

Lemma configured_with_preserved
    (n_particles dimensions options velocity_clamp init_pos ftol ftol_iter : pyval)
    (attrs attrs' : gmap string pyval) :
  (forall name, name ∈ hyperparameter_names -> attrs' !! name = attrs !! name) ->
  configured_with n_particles dimensions options velocity_clamp init_pos ftol
    ftol_iter attrs ->
  configured_with n_particles dimensions options velocity_clamp init_pos ftol
    ftol_iter attrs'.
Proof.
  intros Hsame (H1 & H2 & H3 & H4 & H5 & H6 & H7 & H8).
  unfold configured_with.
  rewrite !Hsame by (unfold hyperparameter_names; repeat constructor).
  auto 10.
Qed.

Lemma hyperparameter_not_history (name : string) :
  name ∈ hyperparameter_names -> (name ∉ history_names) /\ name <> "swarm".
Proof.
  unfold hyperparameter_names, history_names. intros Hn.
  repeat (apply elem_of_cons in Hn as [->|Hn]); [..|inversion Hn];
    (split; [intros Hh;
             repeat (apply elem_of_cons in Hh as [Hh|Hh]; [discriminate|]);
             inversion Hh
            |discriminate]).
Qed.

Lemma frame_keeps_hyperparameters (init_swarm : stateful base.State unit)
    (st : base.State) (name : string) :
  init_swarm_frame init_swarm -> name ∈ hyperparameter_names ->
  base.self_attrs (leaves init_swarm st) !! name = base.self_attrs st !! name.
Proof.
  intros Hf Hn. destruct (Hf st) as (Hself & _ & _).
  apply Hself. apply hyperparameter_not_history, Hn.
Qed.

Lemma reset_keeps_hyperparameters (init_swarm : stateful base.State unit)
    (st : base.State) (name : string) :
  init_swarm_frame init_swarm -> name ∈ hyperparameter_names ->
  base.self_attrs (leaves (base.reset init_swarm) st) !! name
  = base.self_attrs st !! name.
Proof.
  intros Hf Hn. unfold leaves. rewrite reset_run.
  fold (leaves init_swarm (cleared st)).
  rewrite (frame_keeps_hyperparameters init_swarm _ name Hf Hn).
  apply cleared_self, hyperparameter_not_history, Hn.
Qed.

(** With a positive integer for [ftol_iter] and an [_init_swarm] that
    returns, the constructor returns the attributes of the new object. *)
Lemma construct_accepts (init_swarm : stateful base.State unit)
    (n_particles dimensions options velocity_clamp init_pos ftol : pyval)
    (ftol_iter : pyval) (st : base.State) :
  positive_integer ftol_iter ->
  (forall st1, returns init_swarm st1 = Ok tt) ->
  returns (base.construct init_swarm n_particles dimensions options
             velocity_clamp init_pos ftol ftol_iter) st
  = Ok (base.self_attrs
          (leaves (base.construct init_swarm n_particles dimensions options
                     velocity_clamp init_pos ftol ftol_iter) st)).
Proof.
  intros Hp Hok. destruct (gt_zero_positive_integer _ Hp) as [Hg Hi].
  unfold returns, leaves, base.construct. fold (bare st).
  rewrite (init_run_accept _ _ _ _ _ _ _ _ _ Hg Hi).
  set (st1 := cleared _). specialize (Hok st1). unfold returns in Hok.
  destruct (init_swarm st1) as [r st2]. cbn in Hok. subst r. reflexivity.
Qed.

(** X12. The constructor checks nothing but [ftol_iter]: on the instance it
    returns, the other arguments are bound as they were passed, whatever
    they are, and [swarm_size] is the pair of [n_particles] and
    [dimensions]. *)
Theorem constructor_binds_arguments (init_swarm : stateful base.State unit)
    (n_particles dimensions options velocity_clamp init_pos ftol : pyval)
    (ftol_iter : pyval) (st : base.State) (self : gmap string pyval) :
  init_swarm_frame init_swarm ->
  returns (base.construct init_swarm n_particles dimensions options
             velocity_clamp init_pos ftol ftol_iter) st = Ok self ->
  configured_with n_particles dimensions options velocity_clamp init_pos ftol
    ftol_iter self.
Proof.
  intros Hf Hret.
  destruct (construct_returned _ _ _ _ _ _ _ _ _ _ Hret) as (_ & _ & _ & ->).
  eapply configured_with_preserved; [|apply ready_configured].
  intros name Hn. apply (frame_keeps_hyperparameters _ _ _ Hf Hn).
Qed.

(** X13. Through the life of an optimizer the constructor returned (records
    of iterations and resets, in any order) the five histories are five
    different lists with the same number of entries, the hyperparameters
    are bound to the objects given to the constructor, and the attributes
    of the class are as they were. *)
Theorem lifecycle_invariant (init_swarm : stateful base.State unit)
    (n_particles dimensions options velocity_clamp init_pos ftol : pyval)
    (ftol_iter : pyval) (st0 st : base.State) (self : gmap string pyval) :
  init_swarm_frame init_swarm ->
  returns (base.construct init_swarm n_particles dimensions options
             velocity_clamp init_pos ftol ftol_iter) st0 = Ok self ->
  rtc (lifecycle init_swarm)
    (leaves (base.construct init_swarm n_particles dimensions options
               velocity_clamp init_pos ftol ftol_iter) st0) st ->
  distinct_histories st /\
  (exists n, aligned st n) /\
  configured_with n_particles dimensions options velocity_clamp init_pos ftol
    ftol_iter (base.self_attrs st) /\
  base.class_attrs st = base.class_attrs st0.
Proof.
  intros Hf Hret Hlife.
  destruct (construct_returned _ _ _ _ _ _ _ _ _ _ Hret) as (_ & _ & Hst & _).
  rewrite Hst in Hlife. clear Hst Hret self.
  set (ready := cleared _) in Hlife.
  revert st Hlife. apply rtc_ind_r.
  2: intros st st' Hsteps Hstep (Hd & [n Hn] & Hc & Hcls).
  - split; [apply (frame_distinct _ _ Hf), cleared_distinct|].
    split; [|split].
    + exists 0. intros name Hname. exists []. split; [|reflexivity].
      apply frame_history;
        [exact Hf|apply history_names_not_swarm, Hname
        |apply cleared_history, Hname].
    + eapply configured_with_preserved; [|apply ready_configured].
      intros name Hname. apply (frame_keeps_hyperparameters _ _ _ Hf Hname).
    + destruct (Hf ready) as (_ & -> & _). reflexivity.
  - destruct Hstep as [hist st|st].
    + destruct (populate_history_facts hist st Hd)
        as (_ & Hself & Hcls' & Hhist & _).
      split; [apply populate_history_distinct, Hd|]. split; [|split].
      * exists (S n). intros name Hname.
        destruct (Hn name Hname) as (xs & Hxs & Hlen).
        destruct (history_names_fields name Hname) as [field Hfield].
        exists (xs ++ [field hist]).
        split; [apply (Hhist name field xs Hfield Hxs)|].
        rewrite length_app. simpl. lia.
      * rewrite Hself. exact Hc.
      * rewrite Hcls'. exact Hcls.
    + split; [apply reset_distinct, Hf|]. split; [|split].
      * exists 0. intros name Hname. exists []. split; [|reflexivity].
        apply reset_histories; assumption.
      * eapply configured_with_preserved; [|exact Hc].
        intros name Hname. apply reset_keeps_hyperparameters; assumption.
      * unfold leaves. rewrite reset_run.
        destruct (Hf (cleared st)) as (_ & Hk & _). unfold leaves in Hk.
        rewrite Hk. exact Hcls.
Qed.

(** X14. An [_init_swarm] that raises makes [reset] raise the same
    exception, after the histories have been replaced by empty lists, and
    makes the constructor raise it once [ftol_iter] has passed the check:
    so it is with the [_init_swarm] of the base class, which raises
    [NotImplementedError]. *)
Theorem init_swarm_error_propagates (init_swarm : stateful base.State unit)
    (n_particles dimensions options velocity_clamp init_pos ftol : pyval)
    (ftol_iter : pyval) (st : base.State) (e : exn) :
  (forall st1, init_swarm st1 = (Raise e, st1)) ->
  returns (base.reset init_swarm) st = Raise e /\
  (forall name, name ∈ history_names ->
     history (leaves (base.reset init_swarm) st) name = Some []) /\
  (positive_integer ftol_iter ->
   returns (base.construct init_swarm n_particles dimensions options
              velocity_clamp init_pos ftol ftol_iter) st = Raise e).
Proof.
  intros Hraise. split; [|split].
  - unfold returns. rewrite reset_run, Hraise. reflexivity.
  - intros name Hn. unfold leaves. rewrite reset_run, Hraise. cbn [snd].
    apply cleared_history, Hn.
  - intros Hp. destruct (gt_zero_positive_integer _ Hp) as [Hg Hi].
    unfold returns, base.construct. fold (bare st).
    rewrite (init_run_accept _ _ _ _ _ _ _ _ _ Hg Hi), Hraise. reflexivity.
Qed.

(** X15. How the constructor rejects [ftol_iter]: every float, also one
    with an integral value, every integer that is not positive and [False]
    fail the assertion; [None] and strings do not compare with [0], and the
    comparison, which comes first, raises [TypeError]. *)
Theorem ftol_iter_rejections (init_swarm : stateful base.State unit)
    (n_particles dimensions options velocity_clamp init_pos ftol : pyval)
    (st : base.State) :
  let new ftol_iter :=
    returns (base.construct init_swarm n_particles dimensions options
               velocity_clamp init_pos ftol ftol_iter) st in
  (forall x, new (PyFloat x) = Raise (AssertionError ftol_iter_message)) /\
  (forall z, (z <= 0)%Z ->
     new (PyInt z) = Raise (AssertionError ftol_iter_message)) /\
  new (PyBool false) = Raise (AssertionError ftol_iter_message) /\
  (exists msg, new PyNone = Raise (TypeError msg)) /\
  (forall str, exists msg, new (PyStr str) = Raise (TypeError msg)).
Proof.
  intros new. subst new. unfold returns, base.construct. fold (bare st).
  split; [|split; [|split; [|split]]].
  - intros x.
    rewrite (init_run_assert _ _ _ _ _ _ _ (PyFloat x) _ (0 <? x)%float);
      [reflexivity|reflexivity|apply andb_false_r].
  - intros z Hz.
    rewrite (init_run_assert _ _ _ _ _ _ _ (PyInt z) _ (0 <? z)%Z);
      [reflexivity|reflexivity|].
    destruct (Z.ltb_spec 0 z); [lia|reflexivity].
  - rewrite (init_run_assert _ _ _ _ _ _ _ (PyBool false) _ false);
      reflexivity.
  - eexists. rewrite (init_run_raise _ _ _ _ _ _ _ PyNone _ _ eq_refl).
    reflexivity.
  - intros str. eexists.
    rewrite (init_run_raise _ _ _ _ _ _ _ (PyStr str) _ _ eq_refl).
    reflexivity.
Qed.

(* ===================================================================== *)
(** * The further theorems at the sample data                            *)
(* ===================================================================== *)

Lemma sample_swarm_shapes : pbest_shapes 3 2 sample_swarm.
Proof. repeat split; repeat constructor. Defined.

Lemma nan_swarm_shapes : pbest_shapes 3 2 nan_swarm.
Proof. repeat split; repeat constructor. Defined.

Lemma update_pbest_invariant_witness :
  pbest_shapes 3 2 sample_swarm /\
  returns update_pbest sample_swarm = Ok tt /\
  pbest_cost (leaves update_pbest sample_swarm) = [4; 5; 5]%float.
Proof.
  split; [exact sample_swarm_shapes|].
  destruct (update_pbest_invariant 3 2 sample_swarm sample_swarm_shapes)
    as (Hret & _).
  split; [exact Hret|]. vm_compute. reflexivity.
Defined.

Lemma update_pbest_idempotent_witness :
  pbest_shapes 3 2 sample_swarm /\
  leaves update_pbest (leaves update_pbest sample_swarm)
  = leaves update_pbest sample_swarm.
Proof.
  split; [exact sample_swarm_shapes|].
  apply (update_pbest_idempotent 3 2 sample_swarm sample_swarm_shapes).
Defined.

(** The first particle has a NaN cost and the second a NaN personal best:
    both keep what they had, though the second now costs [1]. *)
Lemma compute_pbest_nan_witness :
  pbest_shapes 3 2 nan_swarm /\
  exists new_pbest_pos new_pbest_cost,
    returns operators.compute_pbest nan_swarm
      = Ok (new_pbest_pos, new_pbest_cost) /\
    new_pbest_cost !! 0 = Some 5%float /\
    new_pbest_cost !! 1 = Some nan /\
    new_pbest_pos !! 1 = Some [30; 40]%float.
Proof.
  split; [exact nan_swarm_shapes|].
  destruct (compute_pbest_nan 3 2 nan_swarm nan_swarm_shapes)
    as (pos & cost & Hrun & Hnan).
  exists pos, cost. split; [exact Hrun|].
  destruct (Hnan 0 nan 5%float [10; 20]%float eq_refl eq_refl eq_refl
              (or_introl eq_refl)) as [H0 _].
  destruct (Hnan 1 1%float nan [30; 40]%float eq_refl eq_refl eq_refl
              (or_intror eq_refl)) as [H1 H1'].
  repeat split; assumption.
Defined.

Lemma track_minimum_witness :
  pbest_shapes 3 2 sample_swarm /\
  Forall (fun o : matrix * vector => has_shape 3 2 o.1 /\ length o.2 = 3)
    [([[1; 1]; [2; 2]; [3; 3]], [7; 3; 6]);
     ([[0; 1]; [0; 2]; [0; 3]], [6; 4; 9])]%float /\
  returns (track [([[1; 1]; [2; 2]; [3; 3]], [7; 3; 6]);
                  ([[0; 1]; [0; 2]; [0; 3]], [6; 4; 9])]%float) sample_swarm
  = Ok tt.
Proof.
  assert (Hobs : Forall (fun o : matrix * vector =>
                           has_shape 3 2 o.1 /\ length o.2 = 3)
                   [([[1; 1]; [2; 2]; [3; 3]], [7; 3; 6]);
                    ([[0; 1]; [0; 2]; [0; 3]], [6; 4; 9])]%float)
    by (repeat constructor).
  split; [exact sample_swarm_shapes|]. split; [exact Hobs|].
  apply (track_minimum 3 2 _ sample_swarm sample_swarm_shapes Hobs).
Defined.

Lemma operators_shape_error_witness :
  returns operators.compute_pbest ragged_swarm = Raise np.shape_error.
Proof.
  destruct (operators_shape_error ragged_swarm) as [Hpbest _].
  apply Hpbest; simpl; lia.
Defined.


Lemma parallel_refuses_scalars_witness :
  returns (operators.compute_objective_function total_cost
             (Some {| _processes := 2 |}) []) sample_swarm
  = Raise (ValueError "zero-dimensional arrays cannot be concatenated") /\
  returns (operators.compute_objective_function total_cost None [])
    sample_swarm = Ok (PyFloat 91).
Proof.
  destruct (parallel_refuses_scalars sample_swarm total_cost []
              {| _processes := 2 |}) as [Hraise _].
  - simpl. lia.
  - intros block. eexists. split; [reflexivity|exact I].
  - split; [exact Hraise|]. vm_compute. reflexivity.
Defined.


Lemma parallel_evaluation_of_matrices_witness :
  0 < _processes {| _processes := 2 |} /\
  returns (operators.compute_objective_function two_values
             (Some {| _processes := 2 |}) []) sample_swarm
  = Ok (PyArr2 2 [[5; 2]; [25; 2]; [61; 2]]%float).
Proof.
  assert (HP : 0 < _processes {| _processes := 2 |}) by (simpl; lia).
  split; [exact HP|].
  destruct (parallel_evaluation_of_matrices sample_swarm two_values [] 2
              (fun row => [sphere_row row;
                           foldr (fun _ n => n + 1)%float 0%float row])
              {| _processes := 2 |} HP
              (conj (fun row => eq_refl) (fun block => eq_refl)))
    as [_ Hpar].
  rewrite Hpar. vm_compute. reflexivity.
Defined.

Lemma histories_after_run_witness :
  init_swarm_frame sample_init_swarm /\
  history (leaves (populate_all [sample_record; sample_record])
             (leaves (base.reset sample_init_swarm) sample_optimizer))
    "cost_history"
  = Some [PyFloat 4; PyFloat 4].
Proof.
  split; [exact sample_init_swarm_frame|].
  destruct (histories_after_run sample_init_swarm
              [sample_record; sample_record] sample_optimizer
              sample_init_swarm_frame) as [_ Hhist].
  apply (Hhist "cost_history" base.best_cost). repeat constructor.
Defined.

(** The list of the class at address [0] after a reset and two records. *)
Lemma earlier_lists_untouched_witness :
  init_swarm_frame sample_init_swarm /\
  base.heap sample_optimizer !! 0 = Some [] /\
  base.heap (leaves (populate_all [sample_record; sample_record])
               (leaves (base.reset sample_init_swarm) sample_optimizer)) !! 0
  = Some [].
Proof.
  assert (H0 : base.heap sample_optimizer !! 0 = Some [])
    by (vm_compute; reflexivity).
  split; [exact sample_init_swarm_frame|]. split; [exact H0|].
  apply (earlier_lists_untouched sample_init_swarm
           [sample_record; sample_record] sample_optimizer
           sample_init_swarm_frame 0 [] H0).
Defined.

Lemma constructor_binds_arguments_witness :
  init_swarm_frame sample_init_swarm /\
  exists self,
    returns (base.construct sample_init_swarm (PyInt (-3)) (PyStr "two")
               PyNone PyNone PyNone (PyFloat neg_infinity) (PyInt 1))
      base.class_defined = Ok self /\
    self !! "n_particles" = Some (PyInt (-3)) /\
    self !! "swarm_size" = Some (PyTuple [PyInt (-3); PyStr "two"]).
Proof.
  split; [exact sample_init_swarm_frame|].
  assert (Hpos : positive_integer (PyInt 1))
    by (exists 1%Z; split; [reflexivity|lia]).
  pose proof (construct_accepts sample_init_swarm (PyInt (-3)) (PyStr "two")
                PyNone PyNone PyNone (PyFloat neg_infinity) (PyInt 1)
                base.class_defined Hpos (fun _ => eq_refl)) as Hret.
  eexists. split; [exact Hret|].
  destruct (constructor_binds_arguments sample_init_swarm (PyInt (-3))
              (PyStr "two") PyNone PyNone PyNone (PyFloat neg_infinity)
              (PyInt 1) base.class_defined _ sample_init_swarm_frame Hret)
    as (Hn & _ & Hsize & _).
  split; [exact Hn|exact Hsize].
Defined.

Lemma lifecycle_invariant_witness :
  let new :=
    base.construct sample_init_swarm (PyInt 3) (PyInt 2) PyNone PyNone PyNone
      (PyFloat neg_infinity) (PyInt 1) in
  init_swarm_frame sample_init_swarm /\
  distinct_histories
    (leaves (base._populate_history sample_record)
       (leaves (base.reset sample_init_swarm)
          (leaves (base._populate_history sample_record)
             (leaves new base.class_defined)))).
Proof.
  intros new. split; [exact sample_init_swarm_frame|].
  assert (Hpos : positive_integer (PyInt 1))
    by (exists 1%Z; split; [reflexivity|lia]).
  pose proof (construct_accepts sample_init_swarm (PyInt 3) (PyInt 2)
                PyNone PyNone PyNone (PyFloat neg_infinity) (PyInt 1)
                base.class_defined Hpos (fun _ => eq_refl)) as Hret.
  fold new in Hret.
  set (st0 := leaves new base.class_defined) in *.
  set (st1 := leaves (base._populate_history sample_record) st0).
  set (st2 := leaves (base.reset sample_init_swarm) st1).
  set (st3 := leaves (base._populate_history sample_record) st2).
  assert (Hlife : rtc (lifecycle sample_init_swarm) st0 st3).
  { apply (rtc_l _ _ st1); [exact (lifecycle_record _ sample_record st0)|].
    apply (rtc_l _ _ st2); [exact (lifecycle_reset _ st1)|].
    apply rtc_once. exact (lifecycle_record _ sample_record st2). }
  exact (proj1 (lifecycle_invariant sample_init_swarm (PyInt 3) (PyInt 2)
                  PyNone PyNone PyNone (PyFloat neg_infinity) (PyInt 1)
                  base.class_defined st3 _ sample_init_swarm_frame Hret
                  Hlife)).
Defined.

Lemma init_swarm_error_propagates_witness :
  (forall st1, base._init_swarm st1
               = (Raise (NotImplementedError "SwarmBase::init_swarm()"), st1)) /\
  returns (base.reset base._init_swarm) sample_optimizer
  = Raise (NotImplementedError "SwarmBase::init_swarm()") /\
  returns (base.construct base._init_swarm (PyInt 3) (PyInt 2) PyNone PyNone
             PyNone (PyFloat neg_infinity) (PyInt 1)) base.class_defined
  = Raise (NotImplementedError "SwarmBase::init_swarm()").
Proof.
  assert (Habstract : forall st1,
            base._init_swarm st1
            = (Raise (NotImplementedError "SwarmBase::init_swarm()"), st1))
    by (intros st1; reflexivity).
  split; [exact Habstract|].
  split.
  - apply (init_swarm_error_propagates base._init_swarm PyNone PyNone PyNone
             PyNone PyNone PyNone PyNone sample_optimizer _ Habstract).
  - apply (init_swarm_error_propagates base._init_swarm (PyInt 3) (PyInt 2)
             PyNone PyNone PyNone (PyFloat neg_infinity) (PyInt 1)
             base.class_defined _ Habstract).
    exists 1%Z. split; [reflexivity|lia].
Defined.
